(** * HX711_Multi: a shallow embedding of [src/HX711Multi.py]

    The class drives several HX711 converters that share one clock line.
    Python's control flow is embedded in a small state-and-exception monad
    over a [world] that records every GPIO access and every printed line.

    Numeric conventions.
    - Python [int] is [Z].
    - numpy's [float64] is idealised as an exact rational or [NaN]; the
      square root inside [np.std] is kept symbolic by carrying the variance
      and comparing squares (see [le_factor_std]).
    - [max_std_dev_from_mean] is a finite rational.
    The comparison on squares is related to the real square root in
    [le_factor_std_sqrt] and [retained_within_std].

    The exact rationals decide the test [dist <= factor * std] without
    rounding, whereas numpy compares rounded float64 values: a sample whose
    deviation equals the threshold, or a product that underflows, can be
    decided differently.  What depends on that test alone is therefore
    stated over [Float64Ops], an arithmetic left abstract, of which the
    exact rationals ([exact_ops]) are one instance. *)

From Stdlib Require Import Reals Qreals Lra.
From Stdlib Require Import ZArith QArith Qabs List Bool Lia Lqa.
Import ListNotations.
Open Scope Z_scope.

(** ** The GPIO port and the console *)

Inductive level := LOW | HIGH.

Definition level_eqb (a b : level) : bool :=
  match a, b with
  | LOW, LOW | HIGH, HIGH => true
  | _, _ => false
  end.

(** [GPIO.LOW = 0] and [GPIO.HIGH = 1]. *)
Definition level_to_Z (v : level) : Z :=
  match v with LOW => 0 | HIGH => 1 end.

Definition pin := Z.

Inductive direction := IN | OUT.

Inductive gpio_event :=
| Setwarnings (flag : bool)
| Setmode_BCM
| Setup (p : pin) (d : direction)
| Output (p : pin) (v : level)
| Input (p : pin) (v : level).

(** numpy's float64, idealised. *)
Inductive float64 := Fin (q : Q) | NaN.

(** The lines the class prints. *)
Inductive message :=
| Msg_pin_not_ready (p : pin)
| Msg_cannot_tare
| Msg_failed_to_tare
| Msg_tared (offsets : list float64)
| Msg_not_ready
| Msg_invalid_gain.

(** [levels k p] is the level that the [k]-th call of [GPIO.input] of the
    session observes when it reads pin [p]; [reads] counts the calls made so
    far. *)
Record world := {
  levels : nat -> pin -> level;
  reads : nat;
  gpio_log : list gpio_event;
  stdout : list message
}.

Inductive exn := TypeError | IndexError | ValueError | NameError.

(** [OutOfFuel] is not a Python outcome: it marks a [while] loop that was
    still running when the fuel of the model ran out. *)
Inductive outcome (A : Type) :=
| Return (a : A) (w : world)
| Raise (e : exn) (w : world)
| OutOfFuel.

Arguments Return {A} a w.
Arguments Raise {A} e w.
Arguments OutOfFuel {A}.

Definition M (A : Type) := world -> outcome A.

Definition ret {A} (a : A) : M A := fun w => Return a w.

Definition raise {A} (e : exn) : M A := fun w => Raise e w.

Definition bind {A B} (m : M A) (k : A -> M B) : M B :=
  fun w =>
    match m w with
    | Return a w' => k a w'
    | Raise e w' => Raise e w'
    | OutOfFuel => OutOfFuel
    end.

Declare Scope py_scope.
Delimit Scope py_scope with py.
Notation "x <- m ;; k" := (bind m (fun x => k))
  (at level 61, m at next level, right associativity) : py_scope.
Notation "m ;; k" := (bind m (fun _ => k))
  (at level 61, right associativity) : py_scope.
Open Scope py_scope.

Definition log_gpio (e : gpio_event) : M unit :=
  fun w => Return tt {| levels := levels w; reads := reads w;
                        gpio_log := gpio_log w ++ [e]; stdout := stdout w |}.

Definition GPIO_setwarnings (flag : bool) : M unit := log_gpio (Setwarnings flag).
Definition GPIO_setmode_BCM : M unit := log_gpio Setmode_BCM.
Definition GPIO_setup (p : pin) (d : direction) : M unit := log_gpio (Setup p d).
Definition GPIO_output (p : pin) (v : level) : M unit := log_gpio (Output p v).

Definition GPIO_input (p : pin) : M level :=
  fun w =>
    let v := levels w (reads w) p in
    Return v {| levels := levels w; reads := S (reads w);
                gpio_log := gpio_log w ++ [Input p v]; stdout := stdout w |}.

Definition print (m : message) : M unit :=
  fun w => Return tt {| levels := levels w; reads := reads w;
                        gpio_log := gpio_log w; stdout := stdout w ++ [m] |}.

(** ** Python lists indexed in place *)

(** [xs[i]]; out of range raises IndexError. *)
Definition getitem (xs : list Z) (i : nat) : M Z :=
  match nth_error xs i with
  | Some x => ret x
  | None => raise IndexError
  end.

Fixpoint list_update (xs : list Z) (i : nat) (v : Z) : option (list Z) :=
  match xs, i with
  | [], _ => None
  | _ :: tl, O => Some (v :: tl)
  | x :: tl, S j => option_map (cons x) (list_update tl j v)
  end.

(** [xs[i] = v]; out of range raises IndexError. *)
Definition setitem (xs : list Z) (i : nat) (v : Z) : M (list Z) :=
  match list_update xs i v with
  | Some ys => ret ys
  | None => raise IndexError
  end.

(** ** The instance *)

Record HX711_Multi := {
  __PD_SCK_pin : pin;
  __DOUT_pins : list pin;
  __gain : option Z;
  __debug_enabled : bool;
  __offsets : list float64;
  __timeout : Z;
  __num_of_HX711s : nat
}.

Definition set_gain (self : HX711_Multi) (g : option Z) : HX711_Multi :=
  {| __PD_SCK_pin := __PD_SCK_pin self; __DOUT_pins := __DOUT_pins self;
     __gain := g; __debug_enabled := __debug_enabled self;
     __offsets := __offsets self; __timeout := __timeout self;
     __num_of_HX711s := __num_of_HX711s self |}.

Definition set_offsets (self : HX711_Multi) (o : list float64) : HX711_Multi :=
  {| __PD_SCK_pin := __PD_SCK_pin self; __DOUT_pins := __DOUT_pins self;
     __gain := __gain self; __debug_enabled := __debug_enabled self;
     __offsets := o; __timeout := __timeout self;
     __num_of_HX711s := __num_of_HX711s self |}.

(** ** __setGain, __powerUp, __init__ *)

Definition __setGain (self : HX711_Multi) (gain : Z) : M HX711_Multi :=
  if gain =? 128 then ret (set_gain self (Some 1))
  else if gain =? 64 then ret (set_gain self (Some 3))
  else if __debug_enabled self then print Msg_invalid_gain ;; ret self
  else ret self.

Definition __powerUp (self : HX711_Multi) : M unit :=
  GPIO_output (__PD_SCK_pin self) LOW.

Fixpoint setup_inputs (pins : list pin) : M unit :=
  match pins with
  | [] => ret tt
  | p :: rest => GPIO_setup p IN ;; setup_inputs rest
  end.

(** The fields not assigned by [__init__] keep the class attributes:
    [__gain = None], [__offsets = []], [__timeout = 300]. *)
Definition __init__ (data_pins : list pin) (clock_pin : pin) (gain : Z)
    (debug : bool) : M HX711_Multi :=
  let self := {| __PD_SCK_pin := clock_pin; __DOUT_pins := data_pins;
                 __gain := None; __debug_enabled := debug;
                 __offsets := []; __timeout := 300;
                 __num_of_HX711s := length data_pins |} in
  GPIO_setwarnings false ;;
  GPIO_setmode_BCM ;;
  GPIO_setup (__PD_SCK_pin self) OUT ;;
  setup_inputs (__DOUT_pins self) ;;
  self' <- __setGain self gain ;;
  __powerUp self' ;;
  ret self'.

(** ** isReady *)

Fixpoint isReady_loop (debug : bool) (pins : list pin) : M bool :=
  match pins with
  | [] => ret true
  | data_pin :: rest =>
      v <- GPIO_input data_pin ;;
      if level_eqb v HIGH then
        if debug then
          print (Msg_pin_not_ready data_pin) ;;
          isReady_loop debug rest          (* continue *)
        else ret false
      else isReady_loop debug rest
  end.

Definition isReady (self : HX711_Multi) : M bool :=
  isReady_loop (__debug_enabled self) (__DOUT_pins self).

(** ** readRaw *)

(** The body of [for i, data_pin in enumerate(self.__DOUT_pins)]. *)
Fixpoint sample_pins (i : nat) (pins : list pin) (readings : list Z)
    : M (list Z) :=
  match pins with
  | [] => ret readings
  | data_pin :: rest =>
      r <- getitem readings i ;;
      readings1 <- setitem readings i (Z.shiftl r 1) ;;
      r1 <- getitem readings1 i ;;
      v <- GPIO_input data_pin ;;
      readings2 <- setitem readings1 i (Z.lor r1 (level_to_Z v)) ;;
      sample_pins (S i) rest readings2
  end.

(** [n] iterations of the body of [for bits in range(24)]. *)
Fixpoint data_pulses (n : nat) (self : HX711_Multi) (readings : list Z)
    : M (list Z) :=
  match n with
  | O => ret readings
  | S k =>
      GPIO_output (__PD_SCK_pin self) HIGH ;;
      GPIO_output (__PD_SCK_pin self) LOW ;;
      readings' <- sample_pins 0 (__DOUT_pins self) readings ;;
      data_pulses k self readings'
  end.

(** [n] iterations of the body of [for _ in range(self.__gain)]. *)
Fixpoint gain_pulses (n : nat) (self : HX711_Multi) : M unit :=
  match n with
  | O => ret tt
  | S k =>
      GPIO_output (__PD_SCK_pin self) HIGH ;;
      GPIO_output (__PD_SCK_pin self) LOW ;;
      gain_pulses k self
  end.

(** [range(None)] raises TypeError. *)
Definition range_gain (g : option Z) : M nat :=
  match g with
  | Some n => ret (Z.to_nat n)
  | None => raise TypeError
  end.

(** The last loop of [readRaw]:
    [for reading in readings: if reading & (1 << 23) != 0: reading = reading - (1 << 24)].
    The assignment rebinds the loop variable; the list is not written.  The
    function returns the final value of the local [reading]. *)
Definition twos_complement_loop (readings : list Z) : Z :=
  fold_left
    (fun (_ reading : Z) =>
       if negb (Z.land reading (Z.shiftl 1 (24 - 1)) =? 0)
       then reading - Z.shiftl 1 24
       else reading)
    readings 0.

Definition readRaw (self : HX711_Multi) : M (list Z) :=
  (if __debug_enabled self then
     ready <- isReady self ;;
     if negb ready then print Msg_not_ready else ret tt
   else ret tt) ;;
  let readings := repeat 0 (__num_of_HX711s self) in
  readings <- data_pulses 24 self readings ;;
  GPIO_output (__PD_SCK_pin self) LOW ;;
  n <- range_gain (__gain self) ;;
  gain_pulses n self ;;
  let _reading := twos_complement_loop readings in
  ret readings.

(** ** The numpy operations used by tare and read *)

Definition to_float (z : Z) : float64 := Fin (inject_Z z).

Definition fsub (a b : float64) : float64 :=
  match a, b with
  | Fin x, Fin y => Fin (x - y)
  | _, _ => NaN
  end.

Definition fabs (a : float64) : float64 :=
  match a with
  | Fin x => Fin (Qabs x)
  | NaN => NaN
  end.

Definition sumQ (xs : list Q) : Q := fold_right Qplus 0%Q xs.

(** [np.mean] and [np.average] of a one-dimensional array; the mean of an
    empty array is nan (numpy warns and does not raise). *)
Definition np_mean (xs : list Q) : float64 :=
  match xs with
  | [] => NaN
  | _ => Fin (sumQ xs / inject_Z (Z.of_nat (length xs)))
  end.

Definition np_average (row : list Z) : float64 := np_mean (map inject_Z row).

(** The square of [np.std]: the mean of the squared deviations from the
    mean.  [np.std] itself is the square root of this value. *)
Definition np_std_squared (row : list Z) : float64 :=
  match np_mean (map inject_Z row) with
  | Fin m => np_mean (map (fun x => (inject_Z x - m) * (inject_Z x - m))%Q row)
  | NaN => NaN
  end.

(** [dist <= factor * std] where [std] is the square root of [std_squared],
    decided on the squares.  Comparisons with nan are False. *)
Definition le_factor_std (dist : float64) (factor : Q) (std_squared : float64)
    : bool :=
  match dist, std_squared with
  | Fin d, Fin v =>
      if Qle_bool 0 factor then
        Qle_bool d 0 || Qle_bool (d * d) (factor * factor * v)
      else
        Qle_bool d 0 && Qle_bool (factor * factor * v) (d * d)
  | _, _ => false
  end.

(** [np.array(samples).T]: one row per channel. *)
Definition ncols (rows : list (list Z)) : nat :=
  match rows with
  | [] => O
  | r :: _ => length r
  end.

Definition transpose (rows : list (list Z)) : list (list Z) :=
  map (fun j => map (fun r => nth j r 0) rows) (seq 0 (ncols rows)).

(** [row[mask]] with a boolean mask. *)
Fixpoint mask_select (row : list Z) (mask : list bool) : list Z :=
  match row, mask with
  | x :: row', b :: mask' =>
      if b then x :: mask_select row' mask' else mask_select row' mask'
  | _, _ => []
  end.

(** [np.array(a) - np.array(b)] for one-dimensional arrays: equal lengths
    subtract pointwise, a length-one array is broadcast, anything else
    raises ValueError. *)
Definition np_subtract (a b : list float64) : M (list float64) :=
  if Nat.eqb (length a) (length b) then
    ret (map (fun p => fsub (fst p) (snd p)) (combine a b))
  else
    match a, b with
    | [x], _ => ret (map (fun y => fsub x y) b)
    | _, [y] => ret (map (fun x => fsub x y) a)
    | _, _ => raise ValueError
    end.

(** ** tare *)

(** The [while len(samples) < num_of_samples] loop, with fuel. *)
Fixpoint tare_collect (fuel : nat) (self : HX711_Multi) (num_of_samples : Z)
    (samples : list (list Z)) : M (list (list Z)) :=
  if Z.of_nat (length samples) <? num_of_samples then
    match fuel with
    | O => fun _ => OutOfFuel
    | S fuel' =>
        ready <- isReady self ;;
        if ready then
          r <- readRaw self ;;
          tare_collect fuel' self num_of_samples (samples ++ [r])
        else tare_collect fuel' self num_of_samples samples
    end
  else ret samples.

Definition means_of (samples : list (list Z)) : list float64 :=
  map (fun row => np_mean (map inject_Z row)) samples.

Definition std_devs_squared_of (samples : list (list Z)) : list float64 :=
  map np_std_squared samples.

Definition dists_from_means_of (samples : list (list Z))
    (means : list float64) : list (list float64) :=
  map (fun p => map (fun x => fabs (fsub (to_float x) (snd p))) (fst p))
      (combine samples means).

Definition no_outliers_of (dists : list (list float64)) (factor : Q)
    (std_devs_squared : list float64) : list (list bool) :=
  map (fun p => map (fun d => le_factor_std d factor (snd p)) (fst p))
      (combine dists std_devs_squared).

Definition clean_data_of (samples : list (list Z))
    (no_outliers : list (list bool)) : list (list Z) :=
  map (fun p => mask_select (fst p) (snd p)) (combine samples no_outliers).

(** [len(clean_data) < 0.8*len(samples)]. *)
Definition excessive (clean_data samples : list (list Z)) : bool :=
  negb (Qle_bool ((8 # 10) * inject_Z (Z.of_nat (length samples)))
                 (inject_Z (Z.of_nat (length clean_data)))).

(** The statistics of tare, after the samples are collected.  [return false]
    names an undefined variable, which raises NameError. *)
Definition tare_stats (self : HX711_Multi) (collected : list (list Z))
    (max_std_dev_from_mean : Q) : M (bool * HX711_Multi) :=
  let samples := transpose collected in
  let means := means_of samples in
  let std_devs_squared := std_devs_squared_of samples in
  let dists_from_means := dists_from_means_of samples means in
  let no_outliers :=
    no_outliers_of dists_from_means max_std_dev_from_mean std_devs_squared in
  let clean_data := clean_data_of samples no_outliers in
  let clean_data_length :=
    fold_left (fun acc data_list => (acc + Z.of_nat (length data_list))%Z)
              clean_data 0%Z in
  if excessive clean_data samples then
    (if __debug_enabled self then print Msg_failed_to_tare else ret tt) ;;
    raise NameError
  else
    let avg_samples := map np_average clean_data in
    let self' := set_offsets self avg_samples in
    (if __debug_enabled self' then print (Msg_tared (__offsets self'))
     else ret tt) ;;
    ret (true, self').

Definition tare (fuel : nat) (self : HX711_Multi) (num_of_samples : Z)
    (max_std_dev_from_mean : Q) : M (bool * HX711_Multi) :=
  if num_of_samples <? 100 then
    print Msg_cannot_tare ;;
    ret (false, self)
  else
    samples <- tare_collect fuel self num_of_samples [] ;;
    tare_stats self samples max_std_dev_from_mean.

(** ** read *)

Inductive read_value :=
| RFalse
| RArray (a : list float64).

(** [raw_readings == False]: a Python list never equals a bool. *)
Definition list_eq_False (raw_readings : list Z) : bool := false.

Definition read (self : HX711_Multi) : M read_value :=
  raw_readings <- readRaw self ;;
  if list_eq_False raw_readings then ret RFalse
  else
    a <- np_subtract (map to_float raw_readings) (__offsets self) ;;
    ret (RArray a).

(** ** tare over an abstract float64 arithmetic *)

(** The numpy operations of tare, left abstract.  In numpy the three
    carriers are all float64; they are kept apart so that the exact model,
    which carries the variance for [np.std], is an instance.  Reductions
    along axis 1 work row by row. *)
Record Float64Ops := {
  f64 : Type;
  f64_std : Type;
  f64_scaled : Type;
  (** equality of two float64 values *)
  f64_eq : f64 -> f64 -> Prop;
  (** an int as float64 *)
  f64_of_int : Z -> f64;
  (** [np.mean] of one row of samples *)
  np_mean_row : list Z -> f64;
  (** [np.std] of one row of samples *)
  np_std_row : list Z -> f64_std;
  (** a sample minus a mean *)
  int_minus : Z -> f64 -> f64;
  (** [abs] *)
  f64_abs : f64 -> f64;
  (** [max_std_dev_from_mean * std] *)
  factor_times : Q -> f64_std -> f64_scaled;
  (** [dist <= threshold] *)
  f64_le : f64 -> f64_scaled -> bool;
  (** [np.average] of the retained samples of one row *)
  np_average_row : list Z -> f64;
  (** the printed offsets *)
  msg_tared : list f64 -> message
}.

Definition means_over (ops : Float64Ops) (samples : list (list Z))
    : list (f64 ops) :=
  map (np_mean_row ops) samples.

Definition std_devs_over (ops : Float64Ops) (samples : list (list Z))
    : list (f64_std ops) :=
  map (np_std_row ops) samples.

Definition dists_from_means_over (ops : Float64Ops)
    (samples : list (list Z)) (means : list (f64 ops))
    : list (list (f64 ops)) :=
  map (fun p => map (fun x => f64_abs ops (int_minus ops x (snd p))) (fst p))
      (combine samples means).

Definition no_outliers_over (ops : Float64Ops)
    (dists : list (list (f64 ops))) (factor : Q)
    (std_devs : list (f64_std ops)) : list (list bool) :=
  map (fun p =>
         map (fun d => f64_le ops d (factor_times ops factor (snd p))) (fst p))
      (combine dists std_devs).

(** The statistics of tare; the second component of the result is the list
    assigned to [self.__offsets]. *)
Definition tare_stats_over (ops : Float64Ops) (self : HX711_Multi)
    (collected : list (list Z)) (max_std_dev_from_mean : Q)
    : M (bool * list (f64 ops)) :=
  let samples := transpose collected in
  let means := means_over ops samples in
  let std_devs := std_devs_over ops samples in
  let dists_from_means := dists_from_means_over ops samples means in
  let no_outliers :=
    no_outliers_over ops dists_from_means max_std_dev_from_mean std_devs in
  let clean_data := clean_data_of samples no_outliers in
  let clean_data_length :=
    fold_left (fun acc data_list => (acc + Z.of_nat (length data_list))%Z)
              clean_data 0%Z in
  if excessive clean_data samples then
    (if __debug_enabled self then print Msg_failed_to_tare else ret tt) ;;
    raise NameError
  else
    let avg_samples := map (np_average_row ops) clean_data in
    (if __debug_enabled self then print (msg_tared ops avg_samples)
     else ret tt) ;;
    ret (true, avg_samples).

(** tare; [None] when [self.__offsets] is not assigned. *)
Definition tare_over (ops : Float64Ops) (fuel : nat) (self : HX711_Multi)
    (num_of_samples : Z) (max_std_dev_from_mean : Q)
    : M (bool * option (list (f64 ops))) :=
  if num_of_samples <? 100 then
    print Msg_cannot_tare ;;
    ret (false, None)
  else
    samples <- tare_collect fuel self num_of_samples [] ;;
    r <- tare_stats_over ops self samples max_std_dev_from_mean ;;
    ret (fst r, Some (snd r)).

(** The exact rationals as an instance: [tare_stats] and [tare] are
    [tare_stats_over] and [tare_over] at this instance
    ([tare_stats_over_exact], [tare_over_exact]). *)
Definition exact_ops : Float64Ops :=
  {| f64 := float64;
     f64_std := float64;
     f64_scaled := Q * float64;
     f64_eq := fun a b =>
       match a, b with
       | Fin x, Fin y => (x == y)%Q
       | NaN, NaN => True
       | _, _ => False
       end;
     f64_of_int := to_float;
     np_mean_row := fun row => np_mean (map inject_Z row);
     np_std_row := np_std_squared;
     int_minus := fun x m => fsub (to_float x) m;
     f64_abs := fabs;
     factor_times := fun factor v => (factor, v);
     f64_le := fun d t => le_factor_std d (fst t) (snd t);
     np_average_row := np_average;
     msg_tared := Msg_tared |}.

(** * Specification vocabulary *)

(** ** Worlds, logs and accumulators *)

(** The world after [n] more reads, the GPIO events [evs] and the printed
    lines [msgs]. *)
Definition world_after (w : world) (n : nat) (evs : list gpio_event)
    (msgs : list message) : world :=
  {| levels := levels w; reads := reads w + n;
     gpio_log := gpio_log w ++ evs; stdout := stdout w ++ msgs |}.

(** The levels seen by one sweep over the data pins that starts at read
    number [r], and the events the sweep logs. *)
Fixpoint sweep_levels (lv : nat -> pin -> level) (r : nat) (pins : list pin)
    : list level :=
  match pins with
  | [] => []
  | p :: rest => lv r p :: sweep_levels lv (S r) rest
  end.

Fixpoint sweep_events (lv : nat -> pin -> level) (r : nat) (pins : list pin)
    : list gpio_event :=
  match pins with
  | [] => []
  | p :: rest => Input p (lv r p) :: sweep_events lv (S r) rest
  end.

(** One clock pulse: drive the clock high, then low. *)
Definition pulse (clk : pin) : list gpio_event :=
  [Output clk HIGH; Output clk LOW].

(** [n] data pulses, each followed by a sweep over the data pins. *)
Fixpoint data_events (lv : nat -> pin -> level) (clk : pin) (pins : list pin)
    (r n : nat) : list gpio_event :=
  match n with
  | O => []
  | S k =>
      pulse clk ++ sweep_events lv r pins
        ++ data_events lv clk pins (r + length pins) k
  end.

(** [n] gain pulses: no data pin is read. *)
Fixpoint gain_events (clk : pin) (n : nat) : list gpio_event :=
  match n with
  | O => []
  | S k => pulse clk ++ gain_events clk k
  end.

(** Shift every accumulator left and or in the level of its channel. *)
Fixpoint shift_in (readings : list Z) (bits : list level) : list Z :=
  match readings, bits with
  | r :: readings', b :: bits' =>
      Z.lor (Z.shiftl r 1) (level_to_Z b) :: shift_in readings' bits'
  | _, _ => []
  end.

(** The accumulators after [n] data pulses starting at read number [r]. *)
Fixpoint data_readings (lv : nat -> pin -> level) (pins : list pin)
    (r n : nat) (readings : list Z) : list Z :=
  match n with
  | O => readings
  | S k =>
      data_readings lv pins (r + length pins) k
        (shift_in readings (sweep_levels lv r pins))
  end.

(** Number of rising clock edges in a log. *)
Definition is_rising (clk : pin) (e : gpio_event) : bool :=
  match e with
  | Output p HIGH => p =? clk
  | _ => false
  end.

Definition is_input (e : gpio_event) : bool :=
  match e with
  | Input _ _ => true
  | _ => false
  end.

(** Equality of idealised floats: rationals up to [Qeq]. *)
Definition feq (a b : float64) : Prop :=
  match a, b with
  | Fin x, Fin y => (x == y)%Q
  | NaN, NaN => True
  | _, _ => False
  end.

(** Column [i] of the collected sample vectors: the samples of channel [i]. *)
Definition column (i : nat) (collected : list (list Z)) : list Z :=
  map (fun r => nth i r 0) collected.

(** The retention rule in the words of the specification: the absolute
    deviation from the mean is at most the factor times the standard
    deviation. *)
Definition retained (row : list Z) (factor : Q) (x : Z) : bool :=
  le_factor_std (fabs (fsub (to_float x) (np_mean (map inject_Z row))))
                factor (np_std_squared row).

(** An instance as [__init__] builds it. *)
Definition well_formed (self : HX711_Multi) : Prop :=
  __num_of_HX711s self = length (__DOUT_pins self).

(** ** Polling and construction *)

(** The lines printed by a debug sweep: one per pin that reads high. *)
Fixpoint not_ready_msgs (lv : nat -> pin -> level) (r : nat) (pins : list pin)
    : list message :=
  match pins with
  | [] => []
  | p :: rest =>
      (if level_eqb (lv r p) HIGH then [Msg_pin_not_ready p] else [])
        ++ not_ready_msgs lv (S r) rest
  end.

(** The number of pins a sweep without debug reads: it stops at the first
    pin that reads high. *)
Fixpoint polled (lv : nat -> pin -> level) (r : nat) (pins : list pin) : nat :=
  match pins with
  | [] => O
  | p :: rest =>
      if level_eqb (lv r p) HIGH then 1%nat else S (polled lv (S r) rest)
  end.

Definition all_low (bits : list level) : bool :=
  forallb (fun v => negb (level_eqb v HIGH)) bits.

Definition poll_reads (self : HX711_Multi) : nat :=
  if __debug_enabled self then length (__DOUT_pins self) else O.

Definition poll_events (self : HX711_Multi) (lv : nat -> pin -> level)
    (r : nat) : list gpio_event :=
  if __debug_enabled self then sweep_events lv r (__DOUT_pins self) else [].

Definition poll_msgs (self : HX711_Multi) (lv : nat -> pin -> level)
    (r : nat) : list message :=
  if __debug_enabled self then not_ready_msgs lv r (__DOUT_pins self) else [].

(** The raw readings of one protocol cycle started in world [w]. *)
Definition raw_readings_of (self : HX711_Multi) (w : world) : list Z :=
  data_readings (levels w) (__DOUT_pins self) (reads w + poll_reads self) 24
    (repeat 0 (__num_of_HX711s self)).

(** The world after the data pulses and the clock reset of [readRaw]. *)
Definition world_after_data (self : HX711_Multi) (w : world) : world :=
  world_after w (poll_reads self + 24 * length (__DOUT_pins self))
    (poll_events self (levels w) (reads w)
       ++ data_events (levels w) (__PD_SCK_pin self) (__DOUT_pins self)
            (reads w + poll_reads self) 24
       ++ [Output (__PD_SCK_pin self) LOW])
    (poll_msgs self (levels w) (reads w)).

(** The level channel [i] shows on data pulse [k] (counted from 0) of a
    cycle whose first data read has number [r]. *)
Definition sampled (lv : nat -> pin -> level) (pins : list pin) (r k i : nat)
    : level :=
  lv (r + k * length pins + i)%nat (nth i pins 0).

(** The pulse count [__setGain] stores for a gain value. *)
Definition gain_pulse_count (gain : Z) : option Z :=
  if gain =? 128 then Some 1 else if gain =? 64 then Some 3 else None.

(** The instance [__init__] returns. *)
Definition constructed (data_pins : list pin) (clock_pin : pin) (gain : Z)
    (debug : bool) : HX711_Multi :=
  {| __PD_SCK_pin := clock_pin; __DOUT_pins := data_pins;
     __gain := gain_pulse_count gain; __debug_enabled := debug;
     __offsets := []; __timeout := 300;
     __num_of_HX711s := length data_pins |}.

Definition init_events (data_pins : list pin) (clock_pin : pin)
    : list gpio_event :=
  [Setwarnings false; Setmode_BCM; Setup clock_pin OUT]
    ++ map (fun p => Setup p IN) data_pins ++ [Output clock_pin LOW].

Definition init_msgs (gain : Z) (debug : bool) : list message :=
  match gain_pulse_count gain with
  | Some _ => []
  | None => if debug then [Msg_invalid_gain] else []
  end.

(** ** Concrete sessions *)

(** A fresh world whose pins follow [lv]. *)
Definition boot (lv : nat -> pin -> level) : world :=
  {| levels := lv; reads := 0; gpio_log := []; stdout := [] |}.

Definition value_of {A} (o : outcome A) : option (A + exn) :=
  match o with
  | Return a _ => Some (inl a)
  | Raise e _ => Some (inr e)
  | OutOfFuel => None
  end.

(** One channel whose 24 data reads show the bits of [pattern], most
    significant bit first. *)
Definition pattern_levels (pattern : Z) : nat -> pin -> level :=
  fun k _ => if Z.testbit pattern (23 - Z.of_nat k) then HIGH else LOW.

(** The offsets tare stores: per channel, the average of the samples of
    that channel that the retention rule keeps. *)
Definition tare_offsets (collected : list (list Z)) (factor : Q)
    : list float64 :=
  map (fun row => np_average (filter (retained row factor) row))
      (transpose collected).

(** One channel, always ready, whose 100 conversions read 0 (15 times),
    1 (70 times) and 2 (15 times): each iteration of the polling loop makes
    one readiness read and 24 data reads. *)
Definition noisy_levels (k : nat) (p : pin) : level :=
  let s := Nat.div k 25 in
  let j := Nat.modulo k 25 in
  if Nat.eqb j 24 then
    if Nat.leb 15 s && Nat.ltb s 85 then HIGH else LOW
  else if Nat.eqb j 23 then
    if Nat.leb 85 s then HIGH else LOW
  else LOW.

Definition noisy_samples : list (list Z) :=
  repeat [0] 15 ++ repeat [1] 70 ++ repeat [2] 15.

(** The data pin is low for the first 2500 reads, then high. *)
Definition ready_then_high (k : nat) (p : pin) : level :=
  if Nat.ltb k 2500 then LOW else HIGH.

(** ** Vocabulary of the further properties *)

(** The pins of a sweep starting at read number [r] that read high. *)
Fixpoint high_pins (lv : nat -> pin -> level) (r : nat) (pins : list pin)
    : list pin :=
  match pins with
  | [] => []
  | p :: rest =>
      if level_eqb (lv r p) HIGH then p :: high_pins lv (S r) rest
      else high_pins lv (S r) rest
  end.

(** The world a run ends in, when it ends. *)
Definition final_world {A} (o : outcome A) : option world :=
  match o with
  | Return _ w => Some w
  | Raise _ w => Some w
  | OutOfFuel => None
  end.

(** A stored offset is a number between [lo] and [hi]. *)
Definition offset_within (lo hi : Q) (o : float64) : Prop :=
  match o with
  | Fin q => (lo <= q /\ q <= hi)%Q
  | NaN => False
  end.



(** ** Vocabulary of the statistics over an abstract arithmetic *)

(** The retention rule in the words of the specification, over the abstract
    arithmetic: the absolute deviation of the sample from the mean of its
    row is at most the factor times the standard deviation of its row. *)
Definition retained_over (ops : Float64Ops) (row : list Z) (factor : Q)
    (x : Z) : bool :=
  f64_le ops (f64_abs ops (int_minus ops x (np_mean_row ops row)))
         (factor_times ops factor (np_std_row ops row)).

Definition tare_offsets_over (ops : Float64Ops) (collected : list (list Z))
    (factor : Q) : list (f64 ops) :=
  map (fun row => np_average_row ops (filter (retained_over ops row factor) row))
      (transpose collected).


(** * Basic facts *)

Lemma world_after_0 (w : world) : world_after w 0 [] [] = w.
Proof.
  destruct w; unfold world_after; simpl.
  rewrite Nat.add_0_r, !app_nil_r. reflexivity.
Qed.

Lemma world_after_after (w : world) n1 e1 m1 n2 e2 m2 :
  world_after (world_after w n1 e1 m1) n2 e2 m2
  = world_after w (n1 + n2) (e1 ++ e2) (m1 ++ m2).
Proof.
  unfold world_after; simpl.
  rewrite Nat.add_assoc, <- !app_assoc. reflexivity.
Qed.

Lemma levels_world_after (w : world) n evs msgs :
  levels (world_after w n evs msgs) = levels w.
Proof. reflexivity. Qed.

Lemma reads_world_after (w : world) n evs msgs :
  reads (world_after w n evs msgs) = (reads w + n)%nat.
Proof. reflexivity. Qed.

Lemma log_gpio_spec (e : gpio_event) (w : world) :
  log_gpio e w = Return tt (world_after w 0 [e] []).
Proof.
  unfold log_gpio, world_after.
  rewrite Nat.add_0_r, app_nil_r. reflexivity.
Qed.

Lemma GPIO_output_spec (p : pin) (v : level) (w : world) :
  GPIO_output p v w = Return tt (world_after w 0 [Output p v] []).
Proof. apply log_gpio_spec. Qed.

Lemma GPIO_input_spec (p : pin) (w : world) :
  GPIO_input p w
  = Return (levels w (reads w) p)
           (world_after w 1 [Input p (levels w (reads w) p)] []).
Proof.
  unfold GPIO_input, world_after.
  rewrite Nat.add_1_r, app_nil_r. reflexivity.
Qed.

Lemma print_spec (m : message) (w : world) :
  print m w = Return tt (world_after w 0 [] [m]).
Proof.
  unfold print, world_after.
  rewrite Nat.add_0_r, app_nil_r. reflexivity.
Qed.

Lemma bind_Return {A B} (m : M A) (k : A -> M B) (w w' : world) (a : A) :
  m w = Return a w' -> bind m k w = k a w'.
Proof. unfold bind. intros ->. reflexivity. Qed.

Lemma bind_Raise {A B} (m : M A) (k : A -> M B) (w w' : world) (e : exn) :
  m w = Raise e w' -> bind m k w = Raise e w'.
Proof. unfold bind. intros ->. reflexivity. Qed.

Lemma nth_error_middle (pre : list Z) (x : Z) (post : list Z) :
  nth_error (pre ++ x :: post) (length pre) = Some x.
Proof. induction pre; simpl; auto. Qed.

Lemma list_update_middle (pre : list Z) (x v : Z) (post : list Z) :
  list_update (pre ++ x :: post) (length pre) v = Some (pre ++ v :: post).
Proof.
  induction pre as [|a pre IH]; simpl; auto.
  rewrite IH. reflexivity.
Qed.

Lemma getitem_middle (pre : list Z) (x : Z) (post : list Z) (w : world) :
  getitem (pre ++ x :: post) (length pre) w = Return x w.
Proof. unfold getitem. rewrite nth_error_middle. reflexivity. Qed.

Lemma setitem_middle (pre : list Z) (x v : Z) (post : list Z) (w : world) :
  setitem (pre ++ x :: post) (length pre) v w = Return (pre ++ v :: post) w.
Proof. unfold setitem. rewrite list_update_middle. reflexivity. Qed.

(** * The acquisition loops *)

Lemma sample_pins_middle (pins : list pin) :
  forall (pre cur : list Z) (w : world),
    length cur = length pins ->
    sample_pins (length pre) pins (pre ++ cur) w
    = Return (pre ++ shift_in cur (sweep_levels (levels w) (reads w) pins))
             (world_after w (length pins)
                (sweep_events (levels w) (reads w) pins) []).
Proof.
  induction pins as [|p rest IH]; intros pre cur w Hlen.
  - destruct cur; [|discriminate]. simpl.
    rewrite world_after_0. reflexivity.
  - destruct cur as [|c cur]; [discriminate|]. simpl in Hlen.
    cbn [sample_pins].
    rewrite (bind_Return _ _ _ _ _ (getitem_middle pre c cur w)).
    rewrite (bind_Return _ _ _ _ _ (setitem_middle pre c _ cur w)).
    rewrite (bind_Return _ _ _ _ _ (getitem_middle pre _ cur w)).
    rewrite (bind_Return _ _ _ _ _ (GPIO_input_spec p w)).
    rewrite (bind_Return _ _ _ _ _ (setitem_middle pre _ _ cur _)).
    replace (S (length pre)) with (length (pre ++ [Z.lor (Z.shiftl c 1)
               (level_to_Z (levels w (reads w) p))]))
      by (rewrite length_app; simpl; lia).
    replace (pre ++ Z.lor (Z.shiftl c 1) (level_to_Z (levels w (reads w) p))
               :: cur)
      with ((pre ++ [Z.lor (Z.shiftl c 1)
               (level_to_Z (levels w (reads w) p))]) ++ cur)
      by (rewrite <- app_assoc; reflexivity).
    rewrite IH by lia.
    rewrite world_after_after. cbn [levels reads world_after].
    rewrite Nat.add_1_r, <- app_assoc. reflexivity.
Qed.

Lemma sample_pins_spec (pins : list pin) (readings : list Z) (w : world) :
  length readings = length pins ->
  sample_pins 0 pins readings w
  = Return (shift_in readings (sweep_levels (levels w) (reads w) pins))
           (world_after w (length pins)
              (sweep_events (levels w) (reads w) pins) []).
Proof. intro H. exact (sample_pins_middle pins [] readings w H). Qed.

Lemma sweep_levels_length lv r pins : length (sweep_levels lv r pins) = length pins.
Proof. revert r; induction pins; intros; simpl; auto. Qed.

Lemma shift_in_length (readings : list Z) (bits : list level) :
  length bits = length readings ->
  length (shift_in readings bits) = length readings.
Proof.
  revert bits; induction readings as [|r rs IH]; intros [|b bs] H;
    simpl in *; auto; try discriminate.
Qed.

Lemma data_readings_length lv pins n :
  forall r readings,
    length readings = length pins ->
    length (data_readings lv pins r n readings) = length pins.
Proof.
  induction n as [|k IH]; intros r readings H; simpl; auto.
  apply IH. rewrite shift_in_length; auto.
  rewrite sweep_levels_length; auto.
Qed.

Lemma data_pulses_spec (self : HX711_Multi) (n : nat) :
  forall (readings : list Z) (w : world),
    length readings = length (__DOUT_pins self) ->
    data_pulses n self readings w
    = Return (data_readings (levels w) (__DOUT_pins self) (reads w) n readings)
             (world_after w (n * length (__DOUT_pins self))
                (data_events (levels w) (__PD_SCK_pin self) (__DOUT_pins self)
                   (reads w) n) []).
Proof.
  induction n as [|k IH]; intros readings w Hlen.
  - simpl. rewrite world_after_0. reflexivity.
  - cbn [data_pulses].
    rewrite (bind_Return _ _ _ _ _ (GPIO_output_spec _ _ w)).
    rewrite (bind_Return _ _ _ _ _ (GPIO_output_spec _ _ _)).
    rewrite (bind_Return _ _ _ _ _ (sample_pins_spec _ readings _ Hlen)).
    rewrite IH.
    + rewrite !world_after_after. cbn [levels reads world_after data_events
        data_readings pulse].
      rewrite Nat.add_0_r. simpl app.
      replace (0 + 0 + length (__DOUT_pins self) + k * length (__DOUT_pins self))%nat
        with (S k * length (__DOUT_pins self))%nat by (simpl; lia).
      reflexivity.
    + rewrite shift_in_length; auto. rewrite sweep_levels_length; auto.
Qed.

Lemma gain_pulses_spec (self : HX711_Multi) (n : nat) (w : world) :
  gain_pulses n self w
  = Return tt (world_after w 0 (gain_events (__PD_SCK_pin self) n) []).
Proof.
  revert w; induction n as [|k IH]; intro w.
  - simpl. rewrite world_after_0. reflexivity.
  - cbn [gain_pulses].
    rewrite (bind_Return _ _ _ _ _ (GPIO_output_spec _ _ w)).
    rewrite (bind_Return _ _ _ _ _ (GPIO_output_spec _ _ _)).
    rewrite IH, !world_after_after. reflexivity.
Qed.

(** ** isReady *)

Lemma isReady_loop_debug (pins : list pin) :
  forall w : world,
    isReady_loop true pins w
    = Return true
        (world_after w (length pins)
           (sweep_events (levels w) (reads w) pins)
           (not_ready_msgs (levels w) (reads w) pins)).
Proof.
  induction pins as [|p rest IH]; intro w.
  - simpl. rewrite world_after_0. reflexivity.
  - cbn [isReady_loop].
    rewrite (bind_Return _ _ _ _ _ (GPIO_input_spec p w)).
    cbn [sweep_events not_ready_msgs length].
    destruct (level_eqb (levels w (reads w) p) HIGH).
    + rewrite (bind_Return _ _ _ _ _ (print_spec _ _)).
      rewrite IH, !world_after_after.
      cbn [levels reads world_after]. rewrite Nat.add_1_r. reflexivity.
    + rewrite IH, !world_after_after.
      cbn [levels reads world_after]. rewrite Nat.add_1_r. reflexivity.
Qed.

Lemma isReady_loop_nodebug (pins : list pin) :
  forall w : world,
    isReady_loop false pins w
    = Return (all_low (sweep_levels (levels w) (reads w) pins))
        (world_after w (polled (levels w) (reads w) pins)
           (firstn (polled (levels w) (reads w) pins)
              (sweep_events (levels w) (reads w) pins)) []).
Proof.
  induction pins as [|p rest IH]; intro w.
  - simpl. rewrite world_after_0. reflexivity.
  - cbn [isReady_loop].
    rewrite (bind_Return _ _ _ _ _ (GPIO_input_spec p w)).
    cbn [sweep_events sweep_levels polled all_low forallb].
    destruct (level_eqb (levels w (reads w) p) HIGH).
    + reflexivity.
    + rewrite IH, !world_after_after.
      cbn [levels reads world_after firstn negb andb].
      rewrite Nat.add_1_r. reflexivity.
Qed.

Lemma all_low_spec (lv : nat -> pin -> level) (pins : list pin) :
  forall r,
    all_low (sweep_levels lv r pins) = true
    <-> forall i, (i < length pins)%nat -> lv (r + i)%nat (nth i pins 0) = LOW.
Proof.
  induction pins as [|p rest IH]; intro r.
  - simpl. split; auto. intros _ i H. lia.
  - cbn [sweep_levels all_low forallb]. fold (all_low (sweep_levels lv (S r) rest)).
    rewrite andb_true_iff, IH. split.
    + intros [Hp Hrest] [|i] Hi.
      * rewrite Nat.add_0_r. simpl. destruct (lv r p); [reflexivity|discriminate].
      * simpl in Hi. specialize (Hrest i ltac:(lia)).
        replace (r + S i)%nat with (S r + i)%nat by lia. exact Hrest.
    + intro H. split.
      * specialize (H O ltac:(simpl; lia)). rewrite Nat.add_0_r in H.
        simpl in H. rewrite H. reflexivity.
      * intros i Hi. specialize (H (S i) ltac:(simpl; lia)).
        replace (r + S i)%nat with (S r + i)%nat in H by lia. exact H.
Qed.

(** ** readRaw *)

Lemma readRaw_prefix (self : HX711_Multi) (w : world) :
  ((if __debug_enabled self then
      ready <- isReady self ;;
      if negb ready then print Msg_not_ready else ret tt
    else ret tt) : M unit) w
  = Return tt (world_after w (poll_reads self)
                 (poll_events self (levels w) (reads w))
                 (poll_msgs self (levels w) (reads w))).
Proof.
  unfold poll_reads, poll_events, poll_msgs, isReady.
  destruct (__debug_enabled self).
  - rewrite (bind_Return _ _ _ _ _ (isReady_loop_debug _ w)). reflexivity.
  - unfold ret. rewrite world_after_0. reflexivity.
Qed.

Lemma readRaw_spec (self : HX711_Multi) (w : world) :
  well_formed self ->
  readRaw self w
  = match __gain self with
    | Some g =>
        Return (raw_readings_of self w)
          (world_after (world_after_data self w) 0
             (gain_events (__PD_SCK_pin self) (Z.to_nat g)) [])
    | None => Raise TypeError (world_after_data self w)
    end.
Proof.
  intro Hwf. unfold readRaw.
  rewrite (bind_Return _ _ _ _ _ (readRaw_prefix self w)).
  rewrite (bind_Return _ _ _ _ _ (data_pulses_spec self 24 _ _
             ltac:(rewrite repeat_length; exact Hwf))).
  rewrite (bind_Return _ _ _ _ _ (GPIO_output_spec _ _ _)).
  rewrite !world_after_after.
  match goal with
  | |- _ ?W = _ => replace W with (world_after_data self w)
  end.
  2:{ unfold world_after_data.
      rewrite levels_world_after, reads_world_after, !app_nil_r, Nat.add_0_r.
      reflexivity. }
  destruct (__gain self) as [g|].
  - cbn [range_gain]. unfold bind at 1. unfold ret at 1.
    rewrite (bind_Return _ _ _ _ _ (gain_pulses_spec self _ _)).
    unfold ret, raw_readings_of.
    rewrite levels_world_after, reads_world_after. reflexivity.
  - reflexivity.
Qed.

(** ** The bits of the accumulators *)

Lemma nth_sweep_levels lv pins :
  forall r i, (i < length pins)%nat ->
    nth i (sweep_levels lv r pins) LOW = lv (r + i)%nat (nth i pins 0).
Proof.
  induction pins as [|p rest IH]; intros r i Hi; simpl in Hi; [lia|].
  destruct i as [|i]; simpl.
  - rewrite Nat.add_0_r. reflexivity.
  - rewrite IH by lia. f_equal. lia.
Qed.

Lemma nth_shift_in (readings : list Z) :
  forall bits i, length bits = length readings -> (i < length readings)%nat ->
    nth i (shift_in readings bits) 0
    = Z.lor (Z.shiftl (nth i readings 0) 1) (level_to_Z (nth i bits LOW)).
Proof.
  induction readings as [|x xs IH]; intros [|b bs] i Hlen Hi;
    simpl in *; try lia.
  destruct i as [|i]; [reflexivity|]. apply IH; lia.
Qed.

Lemma testbit_level_to_Z (v : level) (j : Z) :
  0 <= j -> Z.testbit (level_to_Z v) j = (j =? 0) && level_eqb v HIGH.
Proof.
  intro Hj. destruct v; simpl level_to_Z.
  - rewrite Z.testbit_0_l, andb_false_r. reflexivity.
  - destruct (Z.eqb_spec j 0) as [->|Hne]; [reflexivity|].
    simpl. apply Z.bits_above_log2; simpl; lia.
Qed.

Lemma testbit_shift_or (x : Z) (v : level) (j : Z) :
  0 <= j ->
  Z.testbit (Z.lor (Z.shiftl x 1) (level_to_Z v)) j
  = if j =? 0 then level_eqb v HIGH else Z.testbit x (j - 1).
Proof.
  intro Hj.
  rewrite Z.lor_spec, Z.shiftl_spec, testbit_level_to_Z by assumption.
  destruct (Z.eqb_spec j 0) as [->|Hne].
  - simpl. reflexivity.
  - rewrite andb_false_l, orb_false_r. reflexivity.
Qed.

Lemma shift_or_bound (x : Z) (v : level) (m : Z) :
  0 <= m -> 0 <= x < 2 ^ m ->
  0 <= Z.lor (Z.shiftl x 1) (level_to_Z v) < 2 ^ (m + 1).
Proof.
  intros Hm Hx.
  assert (E : Z.lor (Z.shiftl x 1) (level_to_Z v) = 2 * x + level_to_Z v).
  { rewrite Z.shiftl_mul_pow2 by lia. change (2 ^ 1) with 2.
    rewrite (Z.mul_comm x 2).
    destruct v; simpl level_to_Z.
    - rewrite Z.lor_0_r. lia.
    - destruct x as [|p|p]; [reflexivity|reflexivity|lia]. }
  rewrite E, Z.pow_add_r by lia. change (2 ^ 1) with 2.
  destruct v; simpl level_to_Z; lia.
Qed.

Lemma data_readings_bits lv pins i n :
  (i < length pins)%nat ->
  forall r readings (j : nat),
    length readings = length pins ->
    Z.testbit (nth i (data_readings lv pins r n readings) 0) (Z.of_nat j)
    = if (j <? n)%nat then level_eqb (sampled lv pins r (n - 1 - j) i) HIGH
      else Z.testbit (nth i readings 0) (Z.of_nat (j - n)).
Proof.
  intro Hi. induction n as [|k IH]; intros r readings j Hlen.
  - simpl. rewrite Nat.sub_0_r. reflexivity.
  - cbn [data_readings].
    rewrite IH
      by (rewrite shift_in_length; auto; rewrite sweep_levels_length; auto).
    destruct (Nat.ltb_spec j k) as [Hjk|Hjk].
    + destruct (Nat.ltb_spec j (S k)); [|lia].
      replace (S k - 1 - j)%nat with (S (k - 1 - j)) by lia.
      unfold sampled. do 2 f_equal. simpl. lia.
    + rewrite nth_shift_in, nth_sweep_levels, testbit_shift_or
        by (rewrite ?sweep_levels_length; lia).
      destruct (Nat.ltb_spec j (S k)) as [Hlt|Hge].
      * replace (j - k)%nat with O by lia. simpl Z.of_nat.
        replace (S k - 1 - j)%nat with O by lia.
        unfold sampled. simpl. rewrite Nat.add_0_r. reflexivity.
      * destruct (Z.eqb_spec (Z.of_nat (j - k)) 0); [lia|].
        f_equal. lia.
Qed.

Lemma data_readings_bound lv pins i n :
  (i < length pins)%nat ->
  forall r readings (m : Z),
    length readings = length pins ->
    0 <= m -> 0 <= nth i readings 0 < 2 ^ m ->
    0 <= nth i (data_readings lv pins r n readings) 0 < 2 ^ (m + Z.of_nat n).
Proof.
  intro Hi. induction n as [|k IH]; intros r readings m Hlen Hm Hx.
  - simpl. rewrite Z.add_0_r. exact Hx.
  - cbn [data_readings].
    replace (m + Z.of_nat (S k)) with ((m + 1) + Z.of_nat k) by lia.
    apply IH.
    + rewrite shift_in_length; auto. rewrite sweep_levels_length; auto.
    + lia.
    + rewrite nth_shift_in by (rewrite ?sweep_levels_length; lia).
      apply shift_or_bound; assumption.
Qed.

Lemma nth_repeat_0 (n i : nat) : nth i (repeat 0 n) 0 = 0.
Proof.
  revert i; induction n as [|n IH]; intros [|i]; simpl; auto.
Qed.

Lemma raw_readings_of_length (self : HX711_Multi) (w : world) :
  well_formed self ->
  length (raw_readings_of self w) = __num_of_HX711s self.
Proof.
  intro Hwf. unfold raw_readings_of.
  rewrite data_readings_length; [symmetry; exact Hwf|].
  rewrite repeat_length. exact Hwf.
Qed.

Lemma raw_readings_of_range (self : HX711_Multi) (w : world) (i : nat) :
  well_formed self -> (i < __num_of_HX711s self)%nat ->
  0 <= nth i (raw_readings_of self w) 0 < 2 ^ 24.
Proof.
  intros Hwf Hi. unfold raw_readings_of.
  change (2 ^ 24) with (2 ^ (0 + Z.of_nat 24)).
  apply data_readings_bound.
  - unfold well_formed in Hwf. lia.
  - rewrite repeat_length. exact Hwf.
  - lia.
  - rewrite nth_repeat_0. simpl. lia.
Qed.

(** Events of a log that satisfy [f]. *)
Lemma filter_sweep_rising clk lv pins :
  forall r, filter (is_rising clk) (sweep_events lv r pins) = [].
Proof. induction pins; intro r; simpl; auto. Qed.

Lemma count_rising_data clk lv pins n :
  forall r,
    length (filter (is_rising clk) (data_events lv clk pins r n)) = n.
Proof.
  induction n as [|k IH]; intro r; [reflexivity|].
  cbn [data_events pulse app filter is_rising].
  rewrite Z.eqb_refl. cbn [length]. rewrite filter_app, filter_sweep_rising.
  simpl. rewrite IH. reflexivity.
Qed.

Lemma count_rising_gain clk n :
  length (filter (is_rising clk) (gain_events clk n)) = n.
Proof.
  induction n as [|k IH]; [reflexivity|].
  cbn [gain_events pulse app filter is_rising].
  rewrite Z.eqb_refl. cbn [length]. rewrite IH. reflexivity.
Qed.

Lemma gain_events_no_input clk n : filter is_input (gain_events clk n) = [].
Proof. induction n; simpl; auto. Qed.

(** ** Construction *)

Lemma setup_inputs_spec (pins : list pin) :
  forall w, setup_inputs pins w
            = Return tt (world_after w 0 (map (fun p => Setup p IN) pins) []).
Proof.
  induction pins as [|p rest IH]; intro w.
  - simpl. rewrite world_after_0. reflexivity.
  - cbn [setup_inputs]. unfold GPIO_setup.
    rewrite (bind_Return _ _ _ _ _ (log_gpio_spec _ w)).
    rewrite IH, world_after_after. reflexivity.
Qed.

Lemma __setGain_spec (self : HX711_Multi) (gain : Z) (w : world) :
  __gain self = None ->
  __setGain self gain w
  = Return (set_gain self (gain_pulse_count gain))
           (world_after w 0 [] (init_msgs gain (__debug_enabled self))).
Proof.
  intro Hg. unfold __setGain, init_msgs, gain_pulse_count.
  destruct (gain =? 128); [unfold ret; rewrite world_after_0; reflexivity|].
  destruct (gain =? 64); [unfold ret; rewrite world_after_0; reflexivity|].
  assert (E : set_gain self None = self)
    by (destruct self; simpl in *; subst; reflexivity).
  rewrite E. destruct (__debug_enabled self).
  - rewrite (bind_Return _ _ _ _ _ (print_spec _ w)). reflexivity.
  - unfold ret. rewrite world_after_0. reflexivity.
Qed.

Lemma __init___spec (data_pins : list pin) (clock_pin : pin) (gain : Z)
    (debug : bool) (w : world) :
  __init__ data_pins clock_pin gain debug w
  = Return (constructed data_pins clock_pin gain debug)
           (world_after w 0 (init_events data_pins clock_pin)
              (init_msgs gain debug)).
Proof.
  unfold __init__. cbn [__PD_SCK_pin __DOUT_pins].
  unfold GPIO_setwarnings, GPIO_setmode_BCM, GPIO_setup.
  rewrite (bind_Return _ _ _ _ _ (log_gpio_spec _ w)).
  rewrite (bind_Return _ _ _ _ _ (log_gpio_spec _ _)).
  rewrite (bind_Return _ _ _ _ _ (log_gpio_spec _ _)).
  rewrite (bind_Return _ _ _ _ _ (setup_inputs_spec _ _)).
  match goal with
  | |- bind (__setGain ?s _) _ ?w1 = _ =>
      rewrite (bind_Return _ _ _ _ _
                 (__setGain_spec s gain w1 (eq_refl : __gain s = None)))
  end.
  unfold __powerUp.
  rewrite (bind_Return _ _ _ _ _ (GPIO_output_spec _ _ _)).
  unfold ret. rewrite !world_after_after.
  cbn [app Nat.add set_gain __PD_SCK_pin __debug_enabled].
  rewrite app_nil_r. reflexivity.
Qed.

Lemma constructed_well_formed data_pins clock_pin gain debug :
  well_formed (constructed data_pins clock_pin gain debug).
Proof. reflexivity. Qed.

(** * Claims about construction and acquisition *)

(** C4.  With N configured channels and a gain pulse count G, one readRaw
    cycle returns; after the optional debug poll its GPIO log is exactly 24
    data pulses (clock high, then low), each followed by one read of every
    data pin, then the clock driven low and exactly G gain pulses during
    which no data pin is read.  The returned vector is the N accumulators,
    each shifted left and or-ed with its channel's level on every pulse, so
    that the level sampled on pulse k+1 is bit 23-k: the first pulse yields
    the most significant bit. *)
Theorem readRaw_protocol_cycle (self : HX711_Multi) (g : Z) (w : world) :
  well_formed self ->
  __gain self = Some g ->
  exists (readings : list Z) (w' : world),
    readRaw self w = Return readings w'
    /\ gpio_log w'
       = gpio_log w
           ++ poll_events self (levels w) (reads w)
           ++ data_events (levels w) (__PD_SCK_pin self) (__DOUT_pins self)
                (reads w + poll_reads self) 24
           ++ [Output (__PD_SCK_pin self) LOW]
           ++ gain_events (__PD_SCK_pin self) (Z.to_nat g)
    /\ length (filter (is_rising (__PD_SCK_pin self))
                 (data_events (levels w) (__PD_SCK_pin self)
                    (__DOUT_pins self) (reads w + poll_reads self) 24))
       = 24%nat
    /\ length (filter (is_rising (__PD_SCK_pin self))
                 (gain_events (__PD_SCK_pin self) (Z.to_nat g)))
       = Z.to_nat g
    /\ filter is_input (gain_events (__PD_SCK_pin self) (Z.to_nat g)) = []
    /\ readings
       = data_readings (levels w) (__DOUT_pins self)
           (reads w + poll_reads self) 24 (repeat 0 (__num_of_HX711s self))
    /\ length readings = __num_of_HX711s self
    /\ forall i k : nat,
         (i < __num_of_HX711s self)%nat -> (k < 24)%nat ->
         Z.testbit (nth i readings 0) (Z.of_nat (23 - k))
         = level_eqb (sampled (levels w) (__DOUT_pins self)
                        (reads w + poll_reads self) k i) HIGH.
Proof.
  intros Hwf Hg.
  exists (raw_readings_of self w),
    (world_after (world_after_data self w) 0
       (gain_events (__PD_SCK_pin self) (Z.to_nat g)) []).
  split; [rewrite readRaw_spec, Hg by assumption; reflexivity|].
  split; [unfold world_after_data; cbn [gpio_log world_after];
          rewrite <- !app_assoc; reflexivity|].
  split; [apply count_rising_data|].
  split; [apply count_rising_gain|].
  split; [apply gain_events_no_input|].
  split; [reflexivity|].
  split; [apply raw_readings_of_length; assumption|].
  intros i k Hi Hk. unfold raw_readings_of.
  rewrite data_readings_bits.
  - destruct (Nat.ltb_spec (23 - k) 24); [|lia].
    replace (24 - 1 - (23 - k))%nat with k by lia. reflexivity.
  - unfold well_formed in Hwf. lia.
  - rewrite repeat_length. exact Hwf.
Qed.

Lemma readRaw_protocol_cycle_witness :
  well_formed (constructed [5; 6] 11 128 false)
  /\ __gain (constructed [5; 6] 11 128 false) = Some 1
  /\ exists readings w',
       readRaw (constructed [5; 6] 11 128 false) (boot (fun _ _ => HIGH))
       = Return readings w'
       /\ length readings = 2%nat.
Proof.
  split; [reflexivity|]. split; [reflexivity|].
  destruct (readRaw_protocol_cycle (constructed [5; 6] 11 128 false) 1
              (boot (fun _ _ => HIGH)) eq_refl eq_refl)
    as (readings & w' & Hrun & _ & _ & _ & _ & _ & Hlen & _).
  exists readings, w'. split; [exact Hrun | exact Hlen].
Defined.

(** Every value readRaw returns lies in [0, 2^24): the sign is never
    decoded. *)
Lemma readRaw_unsigned (self : HX711_Multi) (w w' : world)
    (readings : list Z) (i : nat) :
  well_formed self ->
  readRaw self w = Return readings w' ->
  (i < __num_of_HX711s self)%nat ->
  0 <= nth i readings 0 < 2 ^ 24.
Proof.
  intros Hwf Hrun Hi. rewrite readRaw_spec in Hrun by assumption.
  destruct (__gain self); [|discriminate].
  injection Hrun as <- _. apply raw_readings_of_range; assumption.
Qed.

(** C2.  Evaluation of the code on the bit pattern 0x800000 (bit 23 set):
    readRaw returns the unsigned accumulator 8388608, not -8388608. *)
Theorem readRaw_0x800000_not_decoded :
  value_of ((self <- __init__ [5] 11 128 false ;; readRaw self)
              (boot (pattern_levels 8388608)))
  = Some (inl [8388608])
  /\ twos_complement_loop [8388608] = -8388608.
Proof. split; vm_compute; reflexivity. Qed.

(** The three patterns with bit 23 clear are returned as they are. *)
Lemma readRaw_patterns_bit23_clear :
  value_of ((self <- __init__ [5] 11 128 false ;; readRaw self)
              (boot (pattern_levels 8388607)))
  = Some (inl [8388607])
  /\ value_of ((self <- __init__ [5] 11 128 false ;; readRaw self)
                 (boot (pattern_levels 1)))
     = Some (inl [1])
  /\ value_of ((self <- __init__ [5] 11 128 false ;; readRaw self)
                 (boot (pattern_levels 0)))
     = Some (inl [0]).
Proof. repeat split; vm_compute; reflexivity. Qed.

(** C3.  Evaluation of the code with the debug flag set and the only data
    pin high: isReady returns True, while without the flag it returns
    False. *)
Theorem isReady_debug_high_pin :
  value_of ((self <- __init__ [5] 11 128 true ;; isReady self)
              (boot (fun _ _ => HIGH)))
  = Some (inl true)
  /\ value_of ((self <- __init__ [5] 11 128 false ;; isReady self)
                 (boot (fun _ _ => HIGH)))
     = Some (inl false).
Proof. split; vm_compute; reflexivity. Qed.

(** Without the debug flag isReady is True exactly when every data pin
    it reads is low. *)
Lemma isReady_nodebug_iff (self : HX711_Multi) (w : world) :
  __debug_enabled self = false ->
  exists b w',
    isReady self w = Return b w'
    /\ (b = true <->
        forall i, (i < length (__DOUT_pins self))%nat ->
          levels w (reads w + i)%nat (nth i (__DOUT_pins self) 0) = LOW).
Proof.
  intro Hd. unfold isReady. rewrite Hd, isReady_loop_nodebug.
  eexists _, _. split; [reflexivity|]. apply all_low_spec.
Qed.

(** With the debug flag isReady is always True. *)
Lemma isReady_debug_true (self : HX711_Multi) (w : world) :
  __debug_enabled self = true ->
  exists w', isReady self w = Return true w'.
Proof.
  intro Hd. unfold isReady. rewrite Hd, isReady_loop_debug.
  eexists. reflexivity.
Qed.

(** C5, as stated, fails: construction with gain 32 returns an instance. *)
Lemma init_gain_32_returns :
  exists self w',
    __init__ [5] 11 32 false (boot (fun _ _ => LOW)) = Return self w'
    /\ __gain self = None.
Proof. eexists _, _. split; vm_compute; reflexivity. Qed.

(** C5, amended.  Construction always returns an instance; its pulse count
    is 1 for gain 128, 3 for gain 64 and unset for any other gain, and the
    only trace of an unsupported gain is one printed line when the debug
    flag is set. *)
Theorem init_gain_mapping (data_pins : list pin) (clock_pin gain : Z)
    (debug : bool) (w : world) :
  exists self w',
    __init__ data_pins clock_pin gain debug w = Return self w'
    /\ __gain self = gain_pulse_count gain
    /\ gain_pulse_count 128 = Some 1
    /\ gain_pulse_count 64 = Some 3
    /\ (if (gain =? 128) || (gain =? 64) then True
        else gain_pulse_count gain = None)
    /\ stdout w' = stdout w ++ init_msgs gain debug
    /\ init_msgs gain debug
       = if (gain =? 128) || (gain =? 64) then []
         else if debug then [Msg_invalid_gain] else [].
Proof.
  eexists _, _. rewrite __init___spec.
  split; [reflexivity|]. split; [reflexivity|].
  split; [reflexivity|]. split; [reflexivity|].
  unfold init_msgs, gain_pulse_count.
  destruct (gain =? 128), (gain =? 64); repeat split; reflexivity.
Qed.

Lemma isReady_returns (self : HX711_Multi) (w : world) :
  exists b w', isReady self w = Return b w'.
Proof.
  unfold isReady. destruct (__debug_enabled self).
  - rewrite isReady_loop_debug. eexists _, _. reflexivity.
  - rewrite isReady_loop_nodebug. eexists _, _. reflexivity.
Qed.

Lemma tare_collect_no_gain (self : HX711_Multi) (n : Z) (fuel : nat) :
  well_formed self -> __gain self = None ->
  forall samples w s w',
    tare_collect fuel self n samples w = Return s w' ->
    s = samples /\ (Z.of_nat (length samples) <? n) = false.
Proof.
  intros Hwf Hg. induction fuel as [|fuel IH]; intros samples w s w' Hrun.
  - simpl in Hrun.
    destruct (Z.of_nat (length samples) <? n); [discriminate|].
    injection Hrun as <- _. auto.
  - cbn [tare_collect] in Hrun.
    destruct (Z.of_nat (length samples) <? n) eqn:Htest.
    + destruct (isReady_returns self w) as (b & w1 & Hready).
      rewrite (bind_Return _ _ _ _ _ Hready) in Hrun.
      destruct b.
      * unfold bind in Hrun. rewrite readRaw_spec, Hg in Hrun by assumption.
        discriminate.
      * apply IH in Hrun. destruct Hrun as [_ Hrun]. congruence.
    + injection Hrun as <- _. auto.
Qed.

(** C6.  With fewer than 100 requested samples tare returns False at once:
    it prints one line, reads and drives no pin, and leaves the instance,
    hence the stored offsets, as it was. *)
Theorem tare_insufficient_samples (fuel : nat) (self : HX711_Multi) (n : Z)
    (factor : Q) (w : world) :
  n < 100 ->
  exists w',
    tare fuel self n factor w = Return (false, self) w'
    /\ gpio_log w' = gpio_log w
    /\ reads w' = reads w
    /\ stdout w' = stdout w ++ [Msg_cannot_tare].
Proof.
  intro Hn. unfold tare.
  destruct (Z.ltb_spec n 100) as [_|Hge]; [|lia].
  exists {| levels := levels w; reads := reads w; gpio_log := gpio_log w;
            stdout := stdout w ++ [Msg_cannot_tare] |}.
  repeat split.
Qed.

Lemma tare_insufficient_samples_witness :
  50 < 100
  /\ exists w',
       tare 0 (constructed [5; 6] 11 128 false) 50 1%Q (boot (fun _ _ => LOW))
       = Return (false, constructed [5; 6] 11 128 false) w'
       /\ gpio_log w' = []
       /\ reads w' = 0%nat.
Proof.
  split; [lia|].
  destruct (tare_insufficient_samples 0 (constructed [5; 6] 11 128 false) 50
              1%Q (boot (fun _ _ => LOW)) ltac:(lia))
    as (w' & Hrun & Hlog & Hreads & _).
  exists w'. repeat split; assumption.
Defined.

(** C10.  For a gain other than 128 and 64 construction returns an instance
    whose pulse count is unset; on that instance, in every later world,
    readRaw and read raise TypeError, and tare never returns a changed
    instance, so the pulse count stays unset. *)
Theorem invalid_gain_TypeError (data_pins : list pin) (clock_pin gain : Z)
    (debug : bool) (w : world) :
  gain <> 128 -> gain <> 64 ->
  exists self w0,
    __init__ data_pins clock_pin gain debug w = Return self w0
    /\ __gain self = None
    /\ (forall w1, exists w2, readRaw self w1 = Raise TypeError w2)
    /\ (forall w1, exists w2, read self w1 = Raise TypeError w2)
    /\ (forall fuel n factor w1 b self' w2,
          tare fuel self n factor w1 = Return (b, self') w2 -> self' = self).
Proof.
  intros H128 H64.
  assert (Hnone : gain_pulse_count gain = None).
  { unfold gain_pulse_count.
    destruct (Z.eqb_spec gain 128); [contradiction|].
    destruct (Z.eqb_spec gain 64); [contradiction|]. reflexivity. }
  pose proof (constructed_well_formed data_pins clock_pin gain debug) as Hwf.
  set (self := constructed data_pins clock_pin gain debug) in *.
  assert (Hg : __gain self = None) by exact Hnone.
  exists self. eexists. split; [apply __init___spec|].
  split; [exact Hg|].
  assert (Hraw : forall w1, exists w2, readRaw self w1 = Raise TypeError w2).
  { intro w1. rewrite readRaw_spec, Hg by assumption. eexists. reflexivity. }
  split; [exact Hraw|]. split.
  - intro w1. destruct (Hraw w1) as [w2 Hr]. exists w2.
    unfold read. apply bind_Raise. exact Hr.
  - intros fuel n factor w1 b self' w2 Hrun. unfold tare in Hrun.
    destruct (Z.ltb_spec n 100) as [Hlt|Hge].
    + unfold bind, print, ret in Hrun. congruence.
    + unfold bind in Hrun.
      destruct (tare_collect fuel self n [] w1) as [s w3| |] eqn:Hc;
        try discriminate.
      apply (tare_collect_no_gain self n fuel Hwf Hg) in Hc.
      destruct Hc as [_ Hc]. simpl in Hc.
      destruct (Z.ltb_spec 0 n); [discriminate|lia].
Qed.

Lemma invalid_gain_TypeError_witness :
  32 <> 128 /\ 32 <> 64
  /\ exists self w0,
       __init__ [5; 6] 11 32 true (boot (fun _ _ => LOW)) = Return self w0
       /\ __gain self = None
       /\ exists w2, readRaw self w0 = Raise TypeError w2.
Proof.
  split; [lia|]. split; [lia|].
  destruct (invalid_gain_TypeError [5; 6] 11 32 true (boot (fun _ _ => LOW))
              ltac:(lia) ltac:(lia))
    as (self & w0 & Hinit & Hg & Hraw & _).
  exists self, w0. split; [exact Hinit|]. split; [exact Hg|]. apply Hraw.
Defined.

(** * The statistics of tare *)

Lemma transpose_length (collected : list (list Z)) :
  length (transpose collected) = ncols collected.
Proof. unfold transpose. rewrite length_map, length_seq. reflexivity. Qed.

Lemma nth_transpose (collected : list (list Z)) (i : nat) :
  (i < ncols collected)%nat ->
  nth i (transpose collected) [] = column i collected.
Proof.
  intro Hi. unfold transpose, column.
  rewrite (nth_indep _ [] (map (fun r => nth (ncols collected) r 0) collected))
    by (rewrite length_map, length_seq; exact Hi).
  rewrite (map_nth (fun j => map (fun r => nth j r 0) collected)).
  rewrite seq_nth by exact Hi. reflexivity.
Qed.

Lemma mask_select_map {A} (row : list Z) (f : Z -> A) (g : A -> bool) :
  mask_select row (map g (map f row)) = filter (fun x => g (f x)) row.
Proof.
  induction row as [|x xs IH]; simpl; [reflexivity|].
  rewrite IH. reflexivity.
Qed.

Lemma clean_data_of_filter (samples : list (list Z)) (factor : Q) :
  clean_data_of samples
    (no_outliers_of (dists_from_means_of samples (means_of samples)) factor
       (std_devs_squared_of samples))
  = map (fun row => filter (retained row factor) row) samples.
Proof.
  unfold clean_data_of, no_outliers_of, dists_from_means_of, means_of,
    std_devs_squared_of.
  induction samples as [|row rest IH]; [reflexivity|].
  cbn [map combine fst snd]. rewrite IH. f_equal.
  apply (mask_select_map row
           (fun x => fabs (fsub (to_float x) (np_mean (map inject_Z row))))
           (fun d => le_factor_std d factor (np_std_squared row))).
Qed.

Lemma inject_Z_of_nat_nonneg (n : nat) : (0 <= inject_Z (Z.of_nat n))%Q.
Proof. unfold Qle; simpl. lia. Qed.

(** The validity gate compares the number of channels with 0.8 times the
    number of channels, so it never fires. *)
Lemma excessive_false (clean_data samples : list (list Z)) :
  length clean_data = length samples ->
  excessive clean_data samples = false.
Proof.
  intro Hlen. unfold excessive. rewrite Hlen.
  apply negb_false_iff, Qle_bool_iff.
  pose proof (inject_Z_of_nat_nonneg (length samples)). lra.
Qed.

Lemma tare_stats_spec (self : HX711_Multi) (collected : list (list Z))
    (factor : Q) (w : world) :
  tare_stats self collected factor w
  = Return (true, set_offsets self (tare_offsets collected factor))
      (world_after w 0 []
         (if __debug_enabled self
          then [Msg_tared (tare_offsets collected factor)] else [])).
Proof.
  unfold tare_stats. rewrite clean_data_of_filter.
  rewrite excessive_false by (rewrite length_map; reflexivity).
  rewrite map_map. fold (tare_offsets collected factor).
  cbn [__debug_enabled set_offsets __offsets].
  destruct (__debug_enabled self).
  - rewrite (bind_Return _ _ _ _ _ (print_spec _ w)). reflexivity.
  - unfold bind, ret. rewrite world_after_0. reflexivity.
Qed.

(** Every vector the polling loop collects has one entry per channel, and
    the loop stops only with enough vectors. *)
Lemma tare_collect_rows (self : HX711_Multi) (n : Z) (fuel : nat) :
  well_formed self ->
  forall samples w s w',
    Forall (fun r => length r = __num_of_HX711s self) samples ->
    tare_collect fuel self n samples w = Return s w' ->
    Forall (fun r => length r = __num_of_HX711s self) s
    /\ n <= Z.of_nat (length s).
Proof.
  intro Hwf. induction fuel as [|fuel IH]; intros samples w s w' Hall Hrun.
  - simpl in Hrun.
    destruct (Z.ltb_spec (Z.of_nat (length samples)) n); [discriminate|].
    injection Hrun as <- _. auto.
  - cbn [tare_collect] in Hrun.
    destruct (Z.ltb_spec (Z.of_nat (length samples)) n).
    + destruct (isReady_returns self w) as (b & w1 & Hready).
      rewrite (bind_Return _ _ _ _ _ Hready) in Hrun.
      destruct b; [|eapply IH; eauto].
      unfold bind in Hrun. rewrite readRaw_spec in Hrun by assumption.
      destruct (__gain self); [|discriminate].
      eapply IH; [|exact Hrun].
      apply Forall_app. split; [assumption|].
      constructor; [|constructor].
      apply raw_readings_of_length; assumption.
    + injection Hrun as <- _. auto.
Qed.

(** Enough fuel gives the result: when every read sees a low pin, the
    converters are ready at every poll and the polling loop returns after
    one iteration per missing sample. *)
Lemma tare_collect_all_low (self : HX711_Multi) (g n : Z) :
  well_formed self -> __gain self = Some g ->
  forall (fuel : nat) (samples : list (list Z)) (w : world),
    (forall k p, levels w k p = LOW) ->
    (Z.to_nat n - length samples <= fuel)%nat ->
    exists s w', tare_collect fuel self n samples w = Return s w'.
Proof.
  intros Hwf Hg. induction fuel as [|fuel IH]; intros samples w Hlow Hfuel.
  - simpl. destruct (Z.ltb_spec (Z.of_nat (length samples)) n); [lia|].
    eexists _, _. reflexivity.
  - cbn [tare_collect].
    destruct (Z.ltb_spec (Z.of_nat (length samples)) n);
      [|eexists _, _; reflexivity].
    assert (Hready : exists w1,
               isReady self w = Return true w1 /\ levels w1 = levels w).
    { unfold isReady. destruct (__debug_enabled self).
      - rewrite isReady_loop_debug. eexists. split; reflexivity.
      - rewrite isReady_loop_nodebug.
        replace (all_low (sweep_levels (levels w) (reads w) (__DOUT_pins self)))
          with true
          by (symmetry; apply all_low_spec; intros; apply Hlow).
        eexists. split; reflexivity. }
    destruct Hready as (w1 & Hready & Hlv1).
    rewrite (bind_Return _ _ _ _ _ Hready).
    unfold bind at 1. rewrite readRaw_spec, Hg by assumption.
    apply IH.
    + intros k p. rewrite levels_world_after.
      unfold world_after_data. rewrite levels_world_after, Hlv1. apply Hlow.
    + rewrite length_app. simpl. lia.
Qed.

Lemma ncols_rows (collected : list (list Z)) (N : nat) :
  Forall (fun r => length r = N) collected ->
  (0 < length collected)%nat ->
  ncols collected = N.
Proof.
  intros Hall Hlen. destruct collected as [|r rest]; [simpl in Hlen; lia|].
  inversion Hall; assumption.
Qed.

(** ** Samples without variance *)

Lemma sumQ_const (row : list Z) (V : Z) :
  (forall x, In x row -> x = V) ->
  (sumQ (map inject_Z row)
   == inject_Z V * inject_Z (Z.of_nat (length row)))%Q.
Proof.
  induction row as [|a rest IH]; intro Hall.
  - simpl. ring.
  - cbn [map sumQ fold_right length]. fold (sumQ (map inject_Z rest)).
    rewrite IH by (intros x Hx; apply Hall; right; exact Hx).
    rewrite (Hall a (or_introl eq_refl)).
    rewrite Nat2Z.inj_succ. unfold Z.succ. rewrite inject_Z_plus. ring.
Qed.

Lemma np_mean_const (row : list Z) (V : Z) :
  row <> [] ->
  (forall x, In x row -> x = V) ->
  exists m, np_mean (map inject_Z row) = Fin m /\ (m == inject_Z V)%Q.
Proof.
  intros Hne Hall. destruct row as [|a rest]; [contradiction|].
  eexists. split; [reflexivity|].
  rewrite length_map, (sumQ_const (a :: rest) V Hall).
  assert (Hpos : ~ (inject_Z (Z.of_nat (length (a :: rest))) == 0)%Q).
  { unfold Qeq; simpl. lia. }
  field. exact Hpos.
Qed.

Lemma np_std_squared_Fin (row : list Z) :
  row <> [] -> exists v, np_std_squared row = Fin v.
Proof.
  intro Hne. destruct row as [|a rest]; [contradiction|].
  unfold np_std_squared. cbn [map np_mean]. eexists. reflexivity.
Qed.



(** ** The comparison on squares and the real square root *)

Lemma le_factor_std_sqrt (d f v : Q) :
  (0 <= v)%Q ->
  le_factor_std (Fin d) f (Fin v) = true
  <-> (Q2R d <= Q2R f * sqrt (Q2R v))%R.
Proof.
  intro Hv. apply Qle_Rle in Hv. rewrite RMicromega.Q2R_0 in Hv.
  pose proof (sqrt_pos (Q2R v)) as Hs.
  pose proof (sqrt_sqrt (Q2R v) Hv) as Hss.
  set (s := sqrt (Q2R v)) in *.
  assert (H2 : (Q2R f * s * (Q2R f * s) = Q2R f * Q2R f * Q2R v)%R)
    by (rewrite <- Hss; ring).
  cbn [le_factor_std].
  destruct (Qle_bool 0 f) eqn:Hf.
  - apply Qle_bool_iff, Qle_Rle in Hf. rewrite RMicromega.Q2R_0 in Hf.
    assert (H0 : (0 <= Q2R f * s)%R) by Lra.nra.
    rewrite orb_true_iff, !Qle_bool_iff. split.
    + intros [H|H]; apply Qle_Rle in H.
      * rewrite RMicromega.Q2R_0 in H. Lra.lra.
      * rewrite !Q2R_mult in H.
        destruct (Rle_dec (Q2R d) (Q2R f * s)) as [Hle|Hgt]; [exact Hle|].
        exfalso. apply Rnot_le_lt in Hgt.
        assert (H1 : (Q2R f * s * (Q2R f * s) < Q2R d * Q2R d)%R) by Lra.nra.
        Lra.lra.
    + intro H. destruct (Rle_dec (Q2R d) 0) as [Hd|Hd].
      * left. apply Rle_Qle. rewrite RMicromega.Q2R_0. exact Hd.
      * right. apply Rle_Qle. rewrite !Q2R_mult, <- H2. Lra.nra.
  - assert (Hf' : (Q2R f < 0)%R).
    { destruct (Qlt_le_dec f 0) as [H|H].
      - apply Qlt_Rlt in H. rewrite RMicromega.Q2R_0 in H. exact H.
      - apply Qle_bool_iff in H. congruence. }
    assert (Hfs : (Q2R f * s <= 0)%R) by Lra.nra.
    rewrite andb_true_iff, !Qle_bool_iff. split.
    + intros [Hd Hsq]. apply Qle_Rle in Hd, Hsq.
      rewrite RMicromega.Q2R_0 in Hd. rewrite !Q2R_mult in Hsq.
      destruct (Rle_dec (Q2R d) (Q2R f * s)) as [Hle|Hgt]; [exact Hle|].
      exfalso. apply Rnot_le_lt in Hgt.
      assert (H1 : (Q2R d * Q2R d < Q2R f * s * (Q2R f * s))%R) by Lra.nra.
      Lra.lra.
    + intro H. split; apply Rle_Qle.
      * rewrite RMicromega.Q2R_0. Lra.lra.
      * rewrite !Q2R_mult, <- H2. Lra.nra.
Qed.

Lemma Q2R_Qabs (q : Q) : Q2R (Qabs q) = Rabs (Q2R q).
Proof.
  destruct (Qlt_le_dec q 0) as [Hneg|Hpos].
  - rewrite (Qeq_eqR _ _ (Qabs_neg q (Qlt_le_weak _ _ Hneg))), Q2R_opp.
    apply Qlt_Rlt in Hneg. rewrite RMicromega.Q2R_0 in Hneg.
    rewrite Rabs_left by exact Hneg. reflexivity.
  - rewrite (Qeq_eqR _ _ (Qabs_pos q Hpos)).
    apply Qle_Rle in Hpos. rewrite RMicromega.Q2R_0 in Hpos.
    rewrite Rabs_pos_eq by exact Hpos. reflexivity.
Qed.

Lemma Q2R_inject_Z (z : Z) : Q2R (inject_Z z) = IZR z.
Proof. unfold Q2R, inject_Z. simpl. Lra.lra. Qed.

Lemma sumQ_nonneg (xs : list Q) :
  Forall (fun x => 0 <= x)%Q xs -> (0 <= sumQ xs)%Q.
Proof.
  induction 1 as [|x xs Hx _ IH]; simpl; [apply Qle_refl|].
  fold (sumQ xs). lra.
Qed.

Lemma np_mean_nonneg (xs : list Q) (v : Q) :
  Forall (fun x => 0 <= x)%Q xs -> np_mean xs = Fin v -> (0 <= v)%Q.
Proof.
  intros Hall Hv. destruct xs as [|x xs]; [discriminate|].
  injection Hv as <-. apply Qle_shift_div_l.
  - unfold Qlt; simpl. lia.
  - rewrite Qmult_0_l. exact (sumQ_nonneg (x :: xs) Hall).
Qed.

Lemma np_std_squared_nonneg (row : list Z) (v : Q) :
  np_std_squared row = Fin v -> (0 <= v)%Q.
Proof.
  unfold np_std_squared.
  destruct (np_mean (map inject_Z row)) as [m|]; [|discriminate].
  apply np_mean_nonneg. apply Forall_forall. intros q Hq.
  apply in_map_iff in Hq. destruct Hq as (x & <- & _).
  cbv beta. generalize (inject_Z x - m)%Q. intro q. nra.
Qed.

(** The retention rule over the reals: [x] is kept exactly when its
    absolute deviation from the mean [m] is at most [factor] times the
    standard deviation, the square root of [v]. *)
Lemma retained_within_std (row : list Z) (factor : Q) (x : Z) (m v : Q) :
  np_mean (map inject_Z row) = Fin m ->
  np_std_squared row = Fin v ->
  retained row factor x = true
  <-> (Rabs (IZR x - Q2R m) <= Q2R factor * sqrt (Q2R v))%R.
Proof.
  intros Hm Hv. unfold retained. rewrite Hm, Hv.
  cbn [to_float fsub fabs].
  rewrite le_factor_std_sqrt by (apply (np_std_squared_nonneg row); exact Hv).
  rewrite Q2R_Qabs, Q2R_minus, Q2R_inject_Z. reflexivity.
Qed.

Lemma nth_tare_offsets (collected : list (list Z)) (factor : Q) (i : nat) :
  (i < ncols collected)%nat ->
  nth i (tare_offsets collected factor) NaN
  = np_average (filter (retained (column i collected) factor)
                  (column i collected)).
Proof.
  intro Hi. unfold tare_offsets.
  transitivity
    ((fun row => np_average (filter (retained row factor) row))
       (nth i (transpose collected) [])).
  - exact (map_nth
             (fun row => np_average (filter (retained row factor) row))
             (transpose collected) [] i).
  - rewrite nth_transpose by exact Hi. reflexivity.
Qed.

(** * Claims about tare *)

(** The validity gate never fires: once the samples are collected, tare
    returns True whatever fraction of the samples was discarded. *)
Lemma tare_never_reports_deviation (fuel : nat) (self : HX711_Multi) (n : Z)
    (factor : Q) (w w1 : world) (collected : list (list Z)) :
  100 <= n ->
  tare_collect fuel self n [] w = Return collected w1 ->
  exists w2,
    tare fuel self n factor w
    = Return (true, set_offsets self (tare_offsets collected factor)) w2.
Proof.
  intros Hn Hrun. eexists. unfold tare.
  destruct (Z.ltb_spec n 100); [lia|].
  rewrite (bind_Return _ _ _ _ _ Hrun). apply tare_stats_spec.
Qed.

(** C1.  Evaluation of the code on [noisy_levels] with factor 0: the
    rejection keeps 70 of the 100 samples (30% are discarded), and tare
    still returns True and stores the offset 1. *)
Theorem tare_accepts_30_percent_discarded :
  value_of (tare_collect 100 (constructed [5] 11 128 false) 100 []
              (boot noisy_levels))
  = Some (inl noisy_samples)
  /\ length (column 0 noisy_samples) = 100%nat
  /\ length (filter (retained (column 0 noisy_samples) 0)
               (column 0 noisy_samples)) = 70%nat
  /\ value_of ((self <- __init__ [5] 11 128 false ;; tare 100 self 100 0%Q)
                 (boot noisy_levels))
     = Some (inl (true,
                  set_offsets (constructed [5] 11 128 false) [Fin (70 # 70)])).
Proof. repeat split; vm_compute; reflexivity. Qed.

(** * Claims about read *)

(** read never returns False: a list of readings never equals False. *)
Lemma read_never_False (self : HX711_Multi) (w w' : world) (v : read_value) :
  read self w = Return v w' -> v <> RFalse.
Proof.
  unfold read, list_eq_False, bind. intro Hrun.
  destruct (readRaw self w) as [raw w1| |]; try discriminate.
  destruct (np_subtract (map to_float raw) (__offsets self) w1);
    try discriminate.
  unfold ret in Hrun. injection Hrun as <- _. discriminate.
Qed.

(** With one stored offset per channel, read returns raw minus offset,
    channel by channel. *)
Lemma read_calibrated (self : HX711_Multi) (g : Z) (w : world) :
  well_formed self ->
  __gain self = Some g ->
  length (__offsets self) = __num_of_HX711s self ->
  exists w',
    read self w
    = Return (RArray (map (fun p => fsub (to_float (fst p)) (snd p))
                        (combine (raw_readings_of self w) (__offsets self))))
             w'.
Proof.
  intros Hwf Hg Hlen. eexists. unfold read.
  rewrite (bind_Return _ _ _ _ _
             (eq_trans (readRaw_spec self w Hwf)
                ltac:(rewrite Hg; reflexivity))).
  unfold list_eq_False, np_subtract.
  rewrite length_map, raw_readings_of_length, Hlen, Nat.eqb_refl
    by assumption.
  unfold bind, ret. do 2 f_equal.
  generalize (__offsets self).
  induction (raw_readings_of self w) as [|x xs IH]; intros [|o os];
    simpl; auto. rewrite IH. reflexivity.
Qed.

(** A raw sample equal to the stored offsets reads as zero. *)
Lemma fsub_same_zero (raw : Z) (offset : float64) :
  feq offset (to_float raw) ->
  feq (fsub (to_float raw) offset) (Fin 0).
Proof.
  destruct offset as [q|]; simpl; [|contradiction].
  intro H. rewrite H. ring.
Qed.

Lemma subtract_equal_zero (raws : list Z) (offsets : list float64) :
  Forall2 (fun raw offset => feq offset (to_float raw)) raws offsets ->
  Forall (fun x => feq x (Fin 0))
         (map (fun p => fsub (to_float (fst p)) (snd p))
              (combine raws offsets)).
Proof.
  induction 1 as [|raw offset raws offsets Hhd _ IH]; cbn [combine map].
  - constructor.
  - constructor; [apply fsub_same_zero; exact Hhd | exact IH].
Qed.

Lemma read_zero_when_raw_equals_offsets (self : HX711_Multi) (g : Z)
    (w : world) :
  well_formed self ->
  __gain self = Some g ->
  Forall2 (fun raw offset => feq offset (to_float raw))
          (raw_readings_of self w) (__offsets self) ->
  exists a w',
    read self w = Return (RArray a) w'
    /\ Forall (fun x => feq x (Fin 0)) a.
Proof.
  intros Hwf Hg Hall.
  assert (Hlen : length (__offsets self) = __num_of_HX711s self).
  { rewrite <- (Forall2_length Hall).
    apply raw_readings_of_length. exact Hwf. }
  destruct (read_calibrated self g w Hwf Hg Hlen) as [w' Hrun].
  eexists _, w'. split; [exact Hrun|].
  apply subtract_equal_zero. exact Hall.
Qed.

(** C8.  Evaluation of the code before any tare: the stored offsets are the
    empty list, so read raises ValueError with two channels and returns an
    empty array with one channel, instead of the raw readings. *)
Theorem read_before_tare :
  value_of ((self <- __init__ [5; 6] 11 128 false ;; read self)
              (boot (fun _ _ => LOW)))
  = Some (inr ValueError)
  /\ value_of ((self <- __init__ [5] 11 128 false ;; read self)
                 (boot (fun _ _ => LOW)))
     = Some (inl (RArray []))
  /\ __offsets (constructed [5; 6] 11 128 false) = [].
Proof. repeat split; vm_compute; reflexivity. Qed.

(** C9.  Evaluation of the code on converters that are not ready: isReady
    returns False, and readRaw and read still return the bits they sampled
    (all ones, 16777215), not a failure. *)
Theorem read_when_not_ready :
  value_of ((self <- __init__ [5] 11 128 false ;;
             ready <- isReady self ;;
             raw <- readRaw self ;;
             ret (ready, raw))
              (boot (fun _ _ => HIGH)))
  = Some (inl (false, [16777215]))
  /\ value_of ((self <- __init__ [5] 11 128 false ;;
                r <- tare 100 self 100 1%Q ;;
                ready <- isReady (snd r) ;;
                v <- read (snd r) ;;
                ret (fst r, ready, v))
                 (boot ready_then_high))
     = Some (inl (true, false, RArray [Fin (1677721500 # 100)])).
Proof. split; vm_compute; reflexivity. Qed.

(** * Further properties of readiness polling and acquisition *)

Lemma polled_all_low (lv : nat -> pin -> level) (pins : list pin) :
  forall r, all_low (sweep_levels lv r pins) = true ->
            polled lv r pins = length pins.
Proof.
  induction pins as [|p rest IH]; intros r H; [reflexivity|].
  cbn [sweep_levels all_low forallb] in H.
  fold (all_low (sweep_levels lv (S r) rest)) in H.
  apply andb_true_iff in H. destruct H as [Hp Hrest].
  cbn [polled length]. apply negb_true_iff in Hp. rewrite Hp.
  f_equal. apply IH. exact Hrest.
Qed.

Lemma polled_first_high (lv : nat -> pin -> level) (pins : list pin) :
  forall r, all_low (sweep_levels lv r pins) = false ->
    exists j, (j < length pins)%nat
              /\ polled lv r pins = S j
              /\ lv (r + j)%nat (nth j pins 0) = HIGH
              /\ forall i, (i < j)%nat -> lv (r + i)%nat (nth i pins 0) = LOW.
Proof.
  induction pins as [|p rest IH]; intros r H; [discriminate|].
  cbn [sweep_levels all_low forallb] in H.
  fold (all_low (sweep_levels lv (S r) rest)) in H.
  cbn [polled length].
  destruct (lv r p) eqn:Hp; cbn [level_eqb negb andb] in *.
  - destruct (IH (S r) H) as (j & Hj & Hpoll & Hhigh & Hlow).
    exists (S j). split; [lia|]. split; [rewrite Hpoll; reflexivity|].
    split.
    + replace (r + S j)%nat with (S r + j)%nat by lia. exact Hhigh.
    + intros [|i] Hi.
      * rewrite Nat.add_0_r. exact Hp.
      * replace (r + S i)%nat with (S r + i)%nat by lia.
        apply Hlow. lia.
  - exists O. split; [lia|]. split; [reflexivity|].
    split; [rewrite Nat.add_0_r; exact Hp|]. intros i Hi. lia.
Qed.

(** X1.  Without the debug flag isReady reads the data pins in channel
    order and stops at the first pin that reads high: it returns True after
    reading every pin low, and False right after the first high pin, without
    reading the pins behind it.  It drives no pin and prints nothing. *)
Theorem isReady_stops_at_first_high (self : HX711_Multi) (w : world) :
  __debug_enabled self = false ->
  exists (b : bool) (k : nat) (w' : world),
    isReady self w = Return b w'
    /\ reads w' = (reads w + k)%nat
    /\ gpio_log w'
       = gpio_log w
           ++ firstn k (sweep_events (levels w) (reads w) (__DOUT_pins self))
    /\ stdout w' = stdout w
    /\ (b = true ->
        k = length (__DOUT_pins self)
        /\ forall i, (i < k)%nat ->
             levels w (reads w + i)%nat (nth i (__DOUT_pins self) 0) = LOW)
    /\ (b = false ->
        exists j, (j < length (__DOUT_pins self))%nat /\ k = S j
          /\ levels w (reads w + j)%nat (nth j (__DOUT_pins self) 0) = HIGH
          /\ forall i, (i < j)%nat ->
               levels w (reads w + i)%nat (nth i (__DOUT_pins self) 0) = LOW).
Proof.
  intro Hd. unfold isReady. rewrite Hd, isReady_loop_nodebug.
  eexists _, _, _. split; [reflexivity|].
  split; [reflexivity|]. split; [reflexivity|].
  split; [cbn [stdout world_after]; apply app_nil_r|].
  split.
  - intro Hb. rewrite (polled_all_low _ _ _ Hb). split; [reflexivity|].
    apply all_low_spec. exact Hb.
  - intro Hb. apply polled_first_high. exact Hb.
Qed.

Lemma isReady_stops_at_first_high_witness :
  __debug_enabled (constructed [5; 6; 7] 11 128 false) = false
  /\ exists b k w',
       isReady (constructed [5; 6; 7] 11 128 false)
         (boot (fun _ p => if p =? 6 then HIGH else LOW))
       = Return b w'
       /\ reads w' = (0 + k)%nat
       /\ (b = false -> exists j, (j < 3)%nat /\ k = S j).
Proof.
  split; [reflexivity|].
  destruct (isReady_stops_at_first_high (constructed [5; 6; 7] 11 128 false)
              (boot (fun _ p => if p =? 6 then HIGH else LOW)) eq_refl)
    as (b & k & w' & Hrun & Hreads & _ & _ & _ & Hfalse).
  exists b, k, w'. split; [exact Hrun|]. split; [exact Hreads|].
  intro Hb. destruct (Hfalse Hb) as (j & Hj & Hk & _).
  exists j. split; [exact Hj | exact Hk].
Defined.

Lemma not_ready_msgs_high_pins (lv : nat -> pin -> level) (pins : list pin) :
  forall r,
    not_ready_msgs lv r pins = map Msg_pin_not_ready (high_pins lv r pins).
Proof.
  induction pins as [|p rest IH]; intro r; [reflexivity|].
  cbn [not_ready_msgs high_pins]. rewrite IH.
  destruct (level_eqb (lv r p) HIGH); reflexivity.
Qed.

(** X2.  With the debug flag isReady reads every data pin, high or not,
    prints one line for each pin that reads high, in channel order, and
    returns True whatever it read. *)
Theorem isReady_debug_reads_all (self : HX711_Multi) (w : world) :
  __debug_enabled self = true ->
  exists w',
    isReady self w = Return true w'
    /\ reads w' = (reads w + length (__DOUT_pins self))%nat
    /\ gpio_log w'
       = gpio_log w ++ sweep_events (levels w) (reads w) (__DOUT_pins self)
    /\ stdout w'
       = stdout w
           ++ map Msg_pin_not_ready
                (high_pins (levels w) (reads w) (__DOUT_pins self)).
Proof.
  intro Hd. unfold isReady. rewrite Hd, isReady_loop_debug.
  eexists. split; [reflexivity|].
  split; [reflexivity|]. split; [reflexivity|].
  cbn [stdout world_after]. rewrite not_ready_msgs_high_pins. reflexivity.
Qed.

Lemma isReady_debug_reads_all_witness :
  __debug_enabled (constructed [5; 6; 7] 11 128 true) = true
  /\ exists w',
       isReady (constructed [5; 6; 7] 11 128 true)
         (boot (fun _ p => if p =? 6 then HIGH else LOW))
       = Return true w'
       /\ reads w' = 3%nat
       /\ stdout w' = [Msg_pin_not_ready 6].
Proof.
  split; [reflexivity|].
  destruct (isReady_debug_reads_all (constructed [5; 6; 7] 11 128 true)
              (boot (fun _ p => if p =? 6 then HIGH else LOW)) eq_refl)
    as (w' & Hrun & Hreads & _ & Hout).
  exists w'. split; [exact Hrun|]. split; [exact Hreads | exact Hout].
Defined.

Lemma readRaw_Return (self : HX711_Multi) (w w' : world) (raw : list Z) :
  well_formed self ->
  readRaw self w = Return raw w' ->
  raw = raw_readings_of self w
  /\ exists g, __gain self = Some g
       /\ w' = world_after (world_after_data self w) 0
                 (gain_events (__PD_SCK_pin self) (Z.to_nat g)) [].
Proof.
  intros Hwf Hrun. rewrite readRaw_spec in Hrun by assumption.
  destruct (__gain self) as [g|]; [|discriminate].
  injection Hrun as <- <-. split; [reflexivity|].
  exists g. split; reflexivity.
Qed.

Lemma readRaw_Return_length (self : HX711_Multi) (w w' : world)
    (raw : list Z) :
  well_formed self ->
  readRaw self w = Return raw w' ->
  length raw = __num_of_HX711s self.
Proof.
  intros Hwf Hrun.
  destruct (readRaw_Return self w w' raw Hwf Hrun) as [-> _].
  apply raw_readings_of_length. exact Hwf.
Qed.

Lemma read_empty_offsets (self : HX711_Multi) (w w' : world) (raw : list Z) :
  well_formed self ->
  __offsets self = [] ->
  readRaw self w = Return raw w' ->
  read self w
  = if (2 <=? __num_of_HX711s self)%nat then Raise ValueError w'
    else Return (RArray []) w'.
Proof.
  intros Hwf Hoff Hrun.
  pose proof (readRaw_Return_length self w w' raw Hwf Hrun) as Hraw.
  unfold read. rewrite (bind_Return _ _ _ _ _ Hrun), Hoff.
  unfold list_eq_False, np_subtract. rewrite length_map, Hraw.
  destruct raw as [|x [|y raw]]; simpl in Hraw; rewrite <- Hraw; reflexivity.
Qed.

(** X3.  Every vector readRaw returns has one entry per channel and every
    entry lies in the unsigned 24-bit range 0 .. 2^24 - 1: readRaw never
    returns a negative reading. *)
Theorem readRaw_range (self : HX711_Multi) (w w' : world) (raw : list Z) :
  well_formed self ->
  readRaw self w = Return raw w' ->
  length raw = __num_of_HX711s self
  /\ Forall (fun r => 0 <= r < 2 ^ 24) raw.
Proof.
  intros Hwf Hrun.
  destruct (readRaw_Return self w w' raw Hwf Hrun) as [-> _].
  pose proof (raw_readings_of_length self w Hwf) as Hlen.
  split; [exact Hlen|].
  apply Forall_forall. intros r Hr.
  destruct (In_nth _ _ 0 Hr) as (i & Hi & <-).
  apply raw_readings_of_range; [exact Hwf | lia].
Qed.

Lemma readRaw_range_witness :
  well_formed (constructed [5; 6] 11 64 false)
  /\ exists raw w',
       readRaw (constructed [5; 6] 11 64 false) (boot (fun _ _ => HIGH))
       = Return raw w'
       /\ length raw = 2%nat
       /\ Forall (fun r => 0 <= r < 2 ^ 24) raw.
Proof.
  split; [reflexivity|].
  pose proof (readRaw_spec (constructed [5; 6] 11 64 false)
                (boot (fun _ _ => HIGH)) eq_refl) as Hrun.
  cbn [__gain constructed gain_pulse_count Z.eqb Pos.eqb] in Hrun.
  eexists _, _. split; [exact Hrun|].
  exact (readRaw_range (constructed [5; 6] 11 64 false) _ _ _ eq_refl Hrun).
Defined.

(** X4.  The warning of readRaw ("HX711s are not ready!") is never printed:
    whether readRaw returns or raises, it has printed nothing without the
    debug flag, and with it only the per-pin lines of its isReady call. *)
Theorem readRaw_never_warns (self : HX711_Multi) (w w' : world) :
  well_formed self ->
  final_world (readRaw self w) = Some w' ->
  stdout w'
  = stdout w
      ++ (if __debug_enabled self
          then map Msg_pin_not_ready
                 (high_pins (levels w) (reads w) (__DOUT_pins self))
          else [])
  /\ ~ In Msg_not_ready (skipn (length (stdout w)) (stdout w')).
Proof.
  intros Hwf Hfin. rewrite readRaw_spec in Hfin by assumption.
  assert (Hout : stdout w'
                 = stdout w
                     ++ (if __debug_enabled self
                         then map Msg_pin_not_ready
                                (high_pins (levels w) (reads w)
                                   (__DOUT_pins self))
                         else [])).
  { destruct (__gain self); injection Hfin as <-;
      unfold world_after_data, poll_msgs; cbn [stdout world_after];
      rewrite ?app_nil_r;
      destruct (__debug_enabled self);
      rewrite ?not_ready_msgs_high_pins; reflexivity. }
  split; [exact Hout|].
  rewrite Hout, skipn_app, Nat.sub_diag, skipn_all, app_nil_l.
  cbn [skipn]. destruct (__debug_enabled self); [|intros []].
  intro Hin. apply in_map_iff in Hin. destruct Hin as (p & Hp & _).
  discriminate.
Qed.

Lemma readRaw_never_warns_witness :
  well_formed (constructed [5; 6] 11 128 true)
  /\ exists w',
       final_world (readRaw (constructed [5; 6] 11 128 true)
                      (boot (fun _ _ => HIGH))) = Some w'
       /\ ~ In Msg_not_ready (skipn 0 (stdout w')).
Proof.
  split; [reflexivity|].
  pose proof (readRaw_spec (constructed [5; 6] 11 128 true)
                (boot (fun _ _ => HIGH)) eq_refl) as Hrun.
  cbn [__gain constructed gain_pulse_count Z.eqb Pos.eqb] in Hrun.
  eexists. split; [rewrite Hrun; reflexivity|].
  refine (proj2 (readRaw_never_warns (constructed [5; 6] 11 128 true)
                   (boot (fun _ _ => HIGH)) _ eq_refl _)).
  rewrite Hrun. reflexivity.
Defined.

(** X5.  With one stored offset per channel, read performs exactly the GPIO
    accesses of readRaw and returns, channel by channel, the raw reading
    minus the offset of that channel. *)
Theorem read_subtracts_offsets (self : HX711_Multi) (w w' : world)
    (raw : list Z) :
  well_formed self ->
  length (__offsets self) = __num_of_HX711s self ->
  readRaw self w = Return raw w' ->
  read self w
  = Return (RArray (map (fun p => fsub (to_float (fst p)) (snd p))
                      (combine raw (__offsets self)))) w'.
Proof.
  intros Hwf Hlen Hrun.
  pose proof (readRaw_Return_length self w w' raw Hwf Hrun) as Hraw.
  unfold read. rewrite (bind_Return _ _ _ _ _ Hrun).
  unfold list_eq_False, np_subtract.
  rewrite length_map, Hraw, Hlen, Nat.eqb_refl.
  unfold bind, ret. do 2 f_equal.
  clear. generalize (__offsets self).
  induction raw as [|x xs IH]; intros [|o os]; simpl; auto.
  rewrite IH. reflexivity.
Qed.

Lemma read_subtracts_offsets_witness :
  well_formed (set_offsets (constructed [5; 6] 11 128 false) [Fin 3; Fin 4])
  /\ length (__offsets (set_offsets (constructed [5; 6] 11 128 false)
                          [Fin 3; Fin 4])) = 2%nat
  /\ exists raw w',
       readRaw (set_offsets (constructed [5; 6] 11 128 false) [Fin 3; Fin 4])
         (boot (fun _ _ => LOW)) = Return raw w'
       /\ read (set_offsets (constructed [5; 6] 11 128 false) [Fin 3; Fin 4])
            (boot (fun _ _ => LOW))
          = Return (RArray (map (fun p => fsub (to_float (fst p)) (snd p))
                              (combine raw [Fin 3; Fin 4]))) w'.
Proof.
  split; [reflexivity|]. split; [reflexivity|].
  pose proof (readRaw_spec
                (set_offsets (constructed [5; 6] 11 128 false) [Fin 3; Fin 4])
                (boot (fun _ _ => LOW)) eq_refl) as Hrun.
  cbn [__gain set_offsets constructed gain_pulse_count Z.eqb Pos.eqb] in Hrun.
  eexists _, _. split; [exact Hrun|].
  exact (read_subtracts_offsets
           (set_offsets (constructed [5; 6] 11 128 false) [Fin 3; Fin 4])
           _ _ _ eq_refl eq_refl Hrun).
Defined.

(** X6.  On an instance whose offsets are still the empty list of the class
    (no tare has succeeded), read first runs the whole readRaw cycle and then
    raises ValueError when there are two or more channels, and returns an
    empty array when there is one channel or none. *)
Theorem read_without_offsets (self : HX711_Multi) (w w' : world)
    (raw : list Z) :
  well_formed self ->
  __offsets self = [] ->
  readRaw self w = Return raw w' ->
  read self w
  = if (2 <=? __num_of_HX711s self)%nat then Raise ValueError w'
    else Return (RArray []) w'.
Proof.
  intros Hwf Hoff Hrun.
  exact (read_empty_offsets self w w' raw Hwf Hoff Hrun).
Qed.

Lemma read_without_offsets_witness :
  well_formed (constructed [5; 6; 7] 11 128 false)
  /\ __offsets (constructed [5; 6; 7] 11 128 false) = []
  /\ exists w',
       read (constructed [5; 6; 7] 11 128 false) (boot (fun _ _ => LOW))
       = Raise ValueError w'.
Proof.
  split; [reflexivity|]. split; [reflexivity|].
  pose proof (readRaw_spec (constructed [5; 6; 7] 11 128 false)
                (boot (fun _ _ => LOW)) eq_refl) as Hrun.
  cbn [__gain constructed gain_pulse_count Z.eqb Pos.eqb] in Hrun.
  eexists.
  exact (read_without_offsets (constructed [5; 6; 7] 11 128 false)
           _ _ _ eq_refl eq_refl Hrun).
Defined.

(** X7.  Construction never reads a pin and never fails.  It logs, in this
    order: warnings off, BCM numbering, the clock pin set up as output, each
    data pin set up as input in channel order, and the clock driven low
    (power-up), also for an unsupported gain.  The instance has one channel
    per data pin and the empty offset list. *)
Theorem init_configures_gpio (data_pins : list pin) (clock_pin gain : Z)
    (debug : bool) (w : world) :
  exists self w',
    __init__ data_pins clock_pin gain debug w = Return self w'
    /\ gpio_log w'
       = gpio_log w
           ++ [Setwarnings false; Setmode_BCM; Setup clock_pin OUT]
           ++ map (fun p => Setup p IN) data_pins
           ++ [Output clock_pin LOW]
    /\ reads w' = reads w
    /\ __PD_SCK_pin self = clock_pin
    /\ __DOUT_pins self = data_pins
    /\ __num_of_HX711s self = length data_pins
    /\ __debug_enabled self = debug
    /\ __offsets self = []
    /\ __timeout self = 300.
Proof.
  eexists _, _. rewrite __init___spec. split; [reflexivity|].
  cbn [gpio_log reads world_after]. rewrite Nat.add_0_r.
  repeat split.
Qed.

(** * Further properties of tare *)

(** The polling loop ends in one of three ways: it returns vectors of one
    entry per channel, it raises the TypeError of an unset pulse count, or
    the model runs out of fuel. *)
Lemma tare_collect_outcomes (self : HX711_Multi) (n : Z) (fuel : nat) :
  well_formed self ->
  forall samples w,
    match tare_collect fuel self n samples w with
    | Return s _ => True
    | Raise e _ => e = TypeError /\ __gain self = None
    | OutOfFuel => True
    end.
Proof.
  intro Hwf. induction fuel as [|fuel IH]; intros samples w.
  - simpl. destruct (Z.of_nat (length samples) <? n); exact I.
  - cbn [tare_collect].
    destruct (Z.of_nat (length samples) <? n); [|exact I].
    destruct (isReady_returns self w) as (b & w1 & Hready).
    rewrite (bind_Return _ _ _ _ _ Hready).
    destruct b; [|apply IH].
    unfold bind at 1. rewrite readRaw_spec by assumption.
    destruct (__gain self); [apply IH | split; reflexivity].
Qed.

(** X8.  For n >= 100 tare has no failure result: when it returns, it
    returns True with one new offset per channel and nothing else of the
    instance changed; the only exception it raises is the TypeError of an
    unset gain pulse count.  It never returns False and never reaches its
    "return false" statement. *)
Theorem tare_outcomes (fuel : nat) (self : HX711_Multi) (n : Z) (factor : Q)
    (w : world) :
  well_formed self ->
  100 <= n ->
  match tare fuel self n factor w with
  | Return (b, self') _ =>
      b = true
      /\ exists offs, self' = set_offsets self offs
                      /\ length offs = __num_of_HX711s self
  | Raise e _ => e = TypeError /\ __gain self = None
  | OutOfFuel => True
  end.
Proof.
  intros Hwf Hn. unfold tare. destruct (Z.ltb_spec n 100); [lia|].
  unfold bind.
  pose proof (tare_collect_outcomes self n fuel Hwf [] w) as Hout.
  destruct (tare_collect fuel self n [] w) as [s w1|e w1|] eqn:Hc;
    [|exact Hout|exact I].
  rewrite tare_stats_spec. split; [reflexivity|].
  exists (tare_offsets s factor). split; [reflexivity|].
  destruct (tare_collect_rows self n fuel Hwf [] w s w1 (Forall_nil _) Hc)
    as [Hrows Hlen].
  unfold tare_offsets. rewrite length_map, transpose_length.
  apply ncols_rows; [assumption | lia].
Qed.

Lemma tare_outcomes_witness :
  well_formed (constructed [5; 6] 11 128 false)
  /\ 100 <= 100
  /\ match tare 100 (constructed [5; 6] 11 128 false) 100 0%Q
             (boot (fun _ _ => LOW)) with
     | Return (b, self') _ =>
         b = true
         /\ exists offs,
              self' = set_offsets (constructed [5; 6] 11 128 false) offs
              /\ length offs = 2%nat
     | Raise e _ => e = TypeError /\ gain_pulse_count 128 = None
     | OutOfFuel => True
     end.
Proof.
  split; [reflexivity|]. split; [lia|].
  exact (tare_outcomes 100 (constructed [5; 6] 11 128 false) 100 0%Q
           (boot (fun _ _ => LOW)) eq_refl ltac:(lia)).
Defined.

(** The polling loop on converters that are ready at every poll: when every
    isReady call in a world with the levels of [w] returns True after [c]
    reads, one sample is collected per iteration. *)
Lemma tare_collect_always_ready (self : HX711_Multi) (g n : Z) (c : nat)
    (lv : nat -> pin -> level) (P : list Z -> Prop) :
  well_formed self -> __gain self = Some g ->
  (forall w1, levels w1 = lv ->
     exists w2, isReady self w1 = Return true w2
                /\ levels w2 = lv /\ reads w2 = (reads w1 + c)%nat) ->
  (forall w1, levels w1 = lv -> P (raw_readings_of self w1)) ->
  forall (fuel : nat) (samples : list (list Z)) (w : world),
    levels w = lv ->
    (Z.to_nat n - length samples <= fuel)%nat ->
    exists extra w',
      tare_collect fuel self n samples w = Return (samples ++ extra) w'
      /\ length extra = (Z.to_nat n - length samples)%nat
      /\ Forall P extra
      /\ levels w' = lv
      /\ reads w'
         = (reads w
            + length extra
              * (c + poll_reads self + 24 * length (__DOUT_pins self)))%nat.
Proof.
  intros Hwf Hg Hready HP.
  induction fuel as [|fuel IH]; intros samples w Hlv Hfuel.
  - exists [], w. simpl.
    destruct (Z.ltb_spec (Z.of_nat (length samples)) n); [lia|].
    rewrite app_nil_r. repeat split; auto; lia.
  - cbn [tare_collect].
    destruct (Z.ltb_spec (Z.of_nat (length samples)) n) as [Hlt|Hge].
    + destruct (Hready w Hlv) as (w1 & Hrun & Hlv1 & Hreads1).
      rewrite (bind_Return _ _ _ _ _ Hrun).
      unfold bind at 1. rewrite readRaw_spec, Hg by assumption.
      match goal with
      | |- context [tare_collect fuel self n ?s ?w2] =>
          destruct (IH s w2) as (extra & w' & Hc & Hlen & Hall & Hlv' & Hreads')
      end.
      * rewrite levels_world_after. unfold world_after_data.
        rewrite levels_world_after. exact Hlv1.
      * rewrite length_app. simpl. lia.
      * exists (raw_readings_of self w1 :: extra), w'.
        rewrite <- app_assoc in Hc. split; [exact Hc|].
        rewrite length_app in Hlen. simpl in Hlen.
        split; [simpl; lia|].
        split; [constructor; [apply HP; exact Hlv1 | exact Hall]|].
        split; [exact Hlv'|].
        rewrite Hreads'. unfold world_after_data.
        rewrite !reads_world_after, Hreads1. simpl length. lia.
    + exists [], w. rewrite app_nil_r.
      repeat split; auto; simpl; lia.
Qed.

(** With the debug flag every isReady call returns True after reading all
    pins. *)
Lemma isReady_debug_ready (self : HX711_Multi) (lv : nat -> pin -> level) :
  __debug_enabled self = true ->
  forall w1, levels w1 = lv ->
    exists w2, isReady self w1 = Return true w2
               /\ levels w2 = lv
               /\ reads w2 = (reads w1 + length (__DOUT_pins self))%nat.
Proof.
  intros Hd w1 Hlv. unfold isReady. rewrite Hd, isReady_loop_debug.
  eexists. split; [reflexivity|]. split; [exact Hlv | reflexivity].
Qed.

(** X9.  With the debug flag tare never waits for the converters: isReady
    is True at every poll, so tare takes a sample on each of its first n
    iterations whatever the data pins show, makes 26 reads per channel and
    sample (one poll by tare, one by readRaw, 24 data bits) and returns
    True. *)
Theorem tare_debug_never_waits (fuel : nat) (self : HX711_Multi) (g n : Z)
    (factor : Q) (w : world) :
  well_formed self ->
  __gain self = Some g ->
  __debug_enabled self = true ->
  100 <= n ->
  (Z.to_nat n <= fuel)%nat ->
  exists offs w',
    tare fuel self n factor w = Return (true, set_offsets self offs) w'
    /\ reads w'
       = (reads w + Z.to_nat n * (26 * length (__DOUT_pins self)))%nat.
Proof.
  intros Hwf Hg Hd Hn Hfuel.
  destruct (tare_collect_always_ready self g n (length (__DOUT_pins self))
              (levels w) (fun _ => True) Hwf Hg
              (isReady_debug_ready self (levels w) Hd) (fun _ _ => I)
              fuel [] w eq_refl ltac:(simpl; lia))
    as (extra & w1 & Hc & Hlen & _ & _ & Hreads).
  simpl in Hc, Hlen. rewrite Nat.sub_0_r in Hlen.
  eexists _, _. unfold tare. destruct (Z.ltb_spec n 100); [lia|].
  rewrite (bind_Return _ _ _ _ _ Hc), tare_stats_spec.
  split; [reflexivity|].
  cbn [reads world_after]. rewrite Hreads, Hlen.
  unfold poll_reads. rewrite Hd. lia.
Qed.

Lemma tare_debug_never_waits_witness :
  well_formed (constructed [5; 6] 11 128 true)
  /\ __gain (constructed [5; 6] 11 128 true) = Some 1
  /\ __debug_enabled (constructed [5; 6] 11 128 true) = true
  /\ 100 <= 100
  /\ (Z.to_nat 100 <= 100)%nat
  /\ exists offs w',
       tare 100 (constructed [5; 6] 11 128 true) 100 1%Q
         (boot (fun _ _ => HIGH))
       = Return (true, set_offsets (constructed [5; 6] 11 128 true) offs) w'
       /\ reads w' = (0 + Z.to_nat 100 * (26 * 2))%nat.
Proof.
  split; [reflexivity|]. split; [reflexivity|]. split; [reflexivity|].
  split; [lia|]. split; [simpl; lia|].
  exact (tare_debug_never_waits 100 (constructed [5; 6] 11 128 true) 1 100
           1%Q (boot (fun _ _ => HIGH)) eq_refl eq_refl eq_refl
           ltac:(lia) ltac:(simpl; lia)).
Defined.

(** X10.  Without the debug flag, while the data pin of the first channel
    reads high at every poll, tare(n), n >= 100, takes no sample and does not
    return: its polling loop is still running after any number of
    iterations, and the timeout stored in the instance is never consulted. *)
Theorem tare_never_ready_runs_forever (self : HX711_Multi) (p : pin)
    (rest : list pin) (n : Z) (factor : Q) :
  __debug_enabled self = false ->
  __DOUT_pins self = p :: rest ->
  100 <= n ->
  forall (fuel : nat) (w : world),
    (forall k, levels w k p = HIGH) ->
    tare fuel self n factor w = OutOfFuel.
Proof.
  intros Hd Hpins Hn fuel w Hhigh.
  unfold tare. destruct (Z.ltb_spec n 100); [lia|].
  assert (Hloop : forall fuel w1,
             levels w1 = levels w ->
             tare_collect fuel self n [] w1 = OutOfFuel).
  { clear fuel. induction fuel as [|fuel IH]; intros w1 Hlv.
    - simpl. destruct (Z.ltb_spec 0 n); [reflexivity|lia].
    - cbn [tare_collect length Z.of_nat].
      destruct (Z.ltb_spec 0 n); [|lia].
      unfold isReady. rewrite Hd, Hpins.
      rewrite (bind_Return _ _ _ _ _ (isReady_loop_nodebug (p :: rest) w1)).
      cbn [sweep_levels all_low forallb]. rewrite Hlv, Hhigh.
      cbn [level_eqb negb andb]. apply IH.
      rewrite levels_world_after. exact Hlv. }
  unfold bind. rewrite (Hloop fuel w eq_refl). reflexivity.
Qed.

Lemma tare_never_ready_runs_forever_witness :
  __debug_enabled (constructed [5; 6] 11 128 false) = false
  /\ __DOUT_pins (constructed [5; 6] 11 128 false) = [5; 6]
  /\ 100 <= 100
  /\ (forall k : nat, levels (boot (fun _ _ => HIGH)) k 5 = HIGH)
  /\ tare 1000 (constructed [5; 6] 11 128 false) 100 1%Q
       (boot (fun _ _ => HIGH)) = OutOfFuel.
Proof.
  split; [reflexivity|]. split; [reflexivity|]. split; [lia|].
  split; [intro k; reflexivity|].
  exact (tare_never_ready_runs_forever (constructed [5; 6] 11 128 false) 5 [6]
           100 1%Q eq_refl eq_refl ltac:(lia) 1000 (boot (fun _ _ => HIGH))
           (fun _ => eq_refl)).
Defined.

(** ** Facts about sums, means and the retention rule *)



Lemma length_pos_Q {A} (a : A) (l : list A) :
  (0 < inject_Z (Z.of_nat (length (a :: l))))%Q.
Proof. unfold Qlt; simpl. lia. Qed.


Lemma Qabs_square (a : Q) : (Qabs a * Qabs a == a * a)%Q.
Proof.
  rewrite <- Qabs_Qmult. apply Qabs_pos. nra.
Qed.

Lemma Qabs_le_0 (a : Q) : (Qabs a <= 0)%Q -> (a == 0)%Q.
Proof.
  intro H. pose proof (Qle_Qabs a) as H1.
  pose proof (Qle_Qabs (- a)) as H2. rewrite Qabs_opp in H2. lra.
Qed.







Lemma column_length (i : nat) (collected : list (list Z)) :
  length (column i collected) = length collected.
Proof. unfold column. apply length_map. Qed.

(** What tare returns once its polling loop has returned [collected]. *)
Lemma tare_after_collect (fuel : nat) (self : HX711_Multi) (n : Z)
    (factor : Q) (w w1 : world) (collected : list (list Z)) :
  well_formed self ->
  100 <= n ->
  tare_collect fuel self n [] w = Return collected w1 ->
  tare fuel self n factor w
  = Return (true, set_offsets self (tare_offsets collected factor))
      (world_after w1 0 []
         (if __debug_enabled self
          then [Msg_tared (tare_offsets collected factor)] else []))
  /\ ncols collected = __num_of_HX711s self
  /\ length (tare_offsets collected factor) = __num_of_HX711s self
  /\ (100 <= length collected)%nat
  /\ Forall (fun r => length r = __num_of_HX711s self) collected.
Proof.
  intros Hwf Hn Hc.
  destruct (tare_collect_rows self n fuel Hwf [] w collected w1
              (Forall_nil _) Hc) as [Hrows Hlen].
  assert (Hcols : ncols collected = __num_of_HX711s self)
    by (apply ncols_rows; [assumption | lia]).
  split.
  { unfold tare. destruct (Z.ltb_spec n 100); [lia|].
    rewrite (bind_Return _ _ _ _ _ Hc). apply tare_stats_spec. }
  split; [exact Hcols|].
  split; [unfold tare_offsets; rewrite length_map, transpose_length;
          exact Hcols|].
  split; [lia | exact Hrows].
Qed.



(** ** An idle bus and an instance without channels *)

Lemma sweep_levels_low (lv : nat -> pin -> level) (pins : list pin) :
  (forall k p, lv k p = LOW) ->
  forall r, sweep_levels lv r pins = repeat LOW (length pins).
Proof.
  intro Hlow. induction pins as [|p rest IH]; intro r; [reflexivity|].
  simpl. rewrite Hlow, IH. reflexivity.
Qed.

Lemma shift_in_zero (k : nat) :
  shift_in (repeat 0 k) (repeat LOW k) = repeat 0 k.
Proof. induction k as [|k IH]; simpl; [|rewrite IH]; reflexivity. Qed.

Lemma data_readings_low (lv : nat -> pin -> level) (pins : list pin) :
  (forall k p, lv k p = LOW) ->
  forall n r,
    data_readings lv pins r n (repeat 0 (length pins))
    = repeat 0 (length pins).
Proof.
  intro Hlow. induction n as [|n IH]; intro r; [reflexivity|].
  cbn [data_readings].
  rewrite (sweep_levels_low lv pins Hlow), shift_in_zero. apply IH.
Qed.





Lemma isReady_no_pins (self : HX711_Multi) (lv : nat -> pin -> level) :
  __DOUT_pins self = [] ->
  forall w1, levels w1 = lv ->
    exists w2, isReady self w1 = Return true w2
               /\ levels w2 = lv /\ reads w2 = (reads w1 + 0)%nat.
Proof.
  intros Hpins w1 Hlv. unfold isReady. rewrite Hpins.
  exists w1. split; [reflexivity|]. split; [exact Hlv | lia].
Qed.

(** X13.  An instance built with an empty list of data pins is always
    ready: tare(n), n >= 100, returns True after n protocol cycles without
    reading any pin and stores the empty offset list, and a read returns an
    empty array. *)
Theorem tare_without_channels (fuel : nat) (self : HX711_Multi) (g n : Z)
    (factor : Q) (w : world) :
  well_formed self ->
  __gain self = Some g ->
  __DOUT_pins self = [] ->
  100 <= n ->
  (Z.to_nat n <= fuel)%nat ->
  exists w',
    tare fuel self n factor w = Return (true, set_offsets self []) w'
    /\ reads w' = reads w
    /\ exists w'', read (set_offsets self []) w' = Return (RArray []) w''.
Proof.
  intros Hwf Hg Hpins Hn Hfuel.
  assert (HN : __num_of_HX711s self = O) by (rewrite Hwf, Hpins; reflexivity).
  destruct (tare_collect_always_ready self g n 0 (levels w)
              (fun _ => True) Hwf Hg (isReady_no_pins self (levels w) Hpins)
              (fun _ _ => I) fuel [] w eq_refl ltac:(simpl; lia))
    as (extra & w1 & Hc & Hlen & _ & _ & Hreads).
  simpl in Hc.
  destruct (tare_after_collect fuel self n factor w w1 extra Hwf Hn Hc)
    as (Hrun & _ & Hoffs & _ & _).
  rewrite HN in Hoffs. apply length_zero_iff_nil in Hoffs.
  rewrite Hoffs in Hrun.
  eexists. split; [exact Hrun|]. split.
  - cbn [reads world_after]. rewrite Hreads, Hpins. unfold poll_reads.
    rewrite Hpins. simpl. destruct (__debug_enabled self); lia.
  - match goal with
    | |- exists w'', read ?s ?w2 = _ =>
        pose proof (readRaw_spec s w2 Hwf) as Hraw
    end.
    cbn [__gain set_offsets] in Hraw. rewrite Hg in Hraw.
    eexists.
    rewrite (read_empty_offsets (set_offsets self []) _ _ _ Hwf eq_refl
               Hraw).
    cbn [__num_of_HX711s set_offsets]. rewrite HN. reflexivity.
Qed.

Lemma tare_without_channels_witness :
  well_formed (constructed [] 11 64 false)
  /\ __gain (constructed [] 11 64 false) = Some 3
  /\ __DOUT_pins (constructed [] 11 64 false) = []
  /\ 100 <= 150
  /\ (Z.to_nat 150 <= 150)%nat
  /\ exists w',
       tare 150 (constructed [] 11 64 false) 150 1%Q (boot (fun _ _ => HIGH))
       = Return (true, set_offsets (constructed [] 11 64 false) []) w'
       /\ reads w' = 0%nat.
Proof.
  split; [reflexivity|]. split; [reflexivity|]. split; [reflexivity|].
  split; [lia|]. split; [simpl; lia|].
  destruct (tare_without_channels 150 (constructed [] 11 64 false) 3 150 1%Q
              (boot (fun _ _ => HIGH)) eq_refl eq_refl eq_refl
              ltac:(lia) ltac:(simpl; lia))
    as (w' & Hrun & Hreads & _).
  exists w'. split; [exact Hrun | exact Hreads].
Defined.

(** ** Which samples survive, and where the offsets lie *)

Lemma inject_Z_S (n : nat) :
  (inject_Z (Z.of_nat (S n)) == inject_Z (Z.of_nat n) + 1)%Q.
Proof.
  rewrite Nat2Z.inj_succ. unfold Z.succ. rewrite inject_Z_plus. reflexivity.
Qed.




Lemma np_mean_Fin (row : list Z) :
  row <> [] -> exists m, np_mean (map inject_Z row) = Fin m.
Proof.
  intro Hne. destruct row as [|a rest]; [contradiction|].
  eexists. reflexivity.
Qed.


Lemma column_nonempty (i : nat) (collected : list (list Z)) :
  (100 <= length collected)%nat -> column i collected <> [].
Proof.
  intros Hlen E. apply (f_equal (@length Z)) in E.
  rewrite column_length in E. simpl in E. lia.
Qed.



Lemma raw_readings_of_Forall (self : HX711_Multi) (w : world) :
  well_formed self ->
  Forall (fun r => 0 <= r < 2 ^ 24) (raw_readings_of self w).
Proof.
  intro Hwf. apply Forall_forall. intros r Hr.
  destruct (In_nth _ _ 0 Hr) as (i & Hi & <-).
  rewrite raw_readings_of_length in Hi by assumption.
  apply raw_readings_of_range; assumption.
Qed.

Lemma tare_collect_range (self : HX711_Multi) (n : Z) (fuel : nat) :
  well_formed self ->
  forall samples w s w',
    Forall (Forall (fun r => 0 <= r < 2 ^ 24)) samples ->
    tare_collect fuel self n samples w = Return s w' ->
    Forall (Forall (fun r => 0 <= r < 2 ^ 24)) s.
Proof.
  intro Hwf. induction fuel as [|fuel IH]; intros samples w s w' Hall Hrun.
  - simpl in Hrun.
    destruct (Z.of_nat (length samples) <? n); [discriminate|].
    injection Hrun as <- _. exact Hall.
  - cbn [tare_collect] in Hrun.
    destruct (Z.of_nat (length samples) <? n).
    + destruct (isReady_returns self w) as (b & w1 & Hready).
      rewrite (bind_Return _ _ _ _ _ Hready) in Hrun.
      destruct b; [|eapply IH; eauto].
      unfold bind in Hrun. rewrite readRaw_spec in Hrun by assumption.
      destruct (__gain self); [|discriminate].
      eapply IH; [|exact Hrun].
      apply Forall_app. split; [assumption|].
      constructor; [|constructor].
      apply raw_readings_of_Forall. assumption.
    + injection Hrun as <- _. exact Hall.
Qed.

Lemma sumQ_bounds (lo hi : Z) (l : list Z) :
  Forall (fun x => lo <= x <= hi) l ->
  (inject_Z lo * inject_Z (Z.of_nat (length l)) <= sumQ (map inject_Z l)
   /\ sumQ (map inject_Z l) <= inject_Z hi * inject_Z (Z.of_nat (length l)))%Q.
Proof.
  induction 1 as [|x l [Hlo Hhi] _ IH].
  - cbn [length map sumQ fold_right].
    change (inject_Z (Z.of_nat 0)) with 0%Q. lra.
  - change (length (x :: l)) with (S (length l)). rewrite inject_Z_S.
    change (sumQ (map inject_Z (x :: l)))
      with (inject_Z x + sumQ (map inject_Z l))%Q.
    rewrite Zle_Qle in Hlo, Hhi. lra.
Qed.

(** The average of a non-empty list lies between its bounds. *)
Lemma np_average_within (lo hi : Z) (l : list Z) :
  l <> [] ->
  Forall (fun x => lo <= x <= hi) l ->
  offset_within (inject_Z lo) (inject_Z hi) (np_average l).
Proof.
  intros Hne Hall. destruct (sumQ_bounds lo hi l Hall) as [Hlo Hhi].
  destruct l as [|a l]; [contradiction|].
  pose proof (length_pos_Q a l) as Hpos.
  unfold np_average. cbn [map np_mean offset_within].
  cbn [length] in *. rewrite length_map. split.
  - apply Qle_shift_div_l; [exact Hpos | exact Hlo].
  - apply Qle_shift_div_r; [exact Hpos | exact Hhi].
Qed.

(** X15.  Every offset tare stores is nan or a number between 0 and
    2^24 - 1: an average of unsigned 24-bit readings.  tare never stores a
    negative offset. *)
Theorem tare_offsets_in_range (fuel : nat) (self : HX711_Multi) (n : Z)
    (factor : Q) (w w1 : world) (collected : list (list Z)) :
  well_formed self ->
  100 <= n ->
  tare_collect fuel self n [] w = Return collected w1 ->
  exists offs w2,
    tare fuel self n factor w = Return (true, set_offsets self offs) w2
    /\ forall i, (i < __num_of_HX711s self)%nat ->
         nth i offs NaN = NaN
         \/ offset_within 0 16777215 (nth i offs NaN).
Proof.
  intros Hwf Hn Hc.
  destruct (tare_after_collect fuel self n factor w w1 collected Hwf Hn Hc)
    as (Hrun & Hcols & _ & Hlen & Hrows).
  pose proof (tare_collect_range self n fuel Hwf [] w collected w1
                (Forall_nil _) Hc) as Hrange.
  eexists _, _. split; [exact Hrun|].
  intros i Hi. rewrite nth_tare_offsets by lia.
  assert (Hcol : Forall (fun x => 0 <= x <= 16777215)
                   (filter (retained (column i collected) factor)
                      (column i collected))).
  { apply Forall_forall. intros x Hx. apply filter_In in Hx.
    destruct Hx as [Hx _]. unfold column in Hx.
    apply in_map_iff in Hx. destruct Hx as (r & <- & Hr).
    rewrite Forall_forall in Hrange, Hrows.
    specialize (Hrange r Hr). specialize (Hrows r Hr).
    rewrite Forall_forall in Hrange.
    assert (Hin : In (nth i r 0) r) by (apply nth_In; lia).
    specialize (Hrange _ Hin). change (2 ^ 24) with 16777216 in Hrange.
    lia. }
  destruct (filter (retained (column i collected) factor)
              (column i collected)) as [|a l] eqn:Hfil.
  - left. reflexivity.
  - right. exact (np_average_within 0 16777215 (a :: l)
                    ltac:(discriminate) Hcol).
Qed.

Lemma tare_offsets_in_range_witness :
  well_formed (constructed [5; 6] 11 128 false)
  /\ 100 <= 100
  /\ exists offs w2,
       tare 100 (constructed [5; 6] 11 128 false) 100 1%Q
         (boot (fun _ _ => LOW))
       = Return (true, set_offsets (constructed [5; 6] 11 128 false) offs) w2
       /\ (nth 1 offs NaN = NaN \/ offset_within 0 16777215 (nth 1 offs NaN)).
Proof.
  split; [reflexivity|]. split; [lia|].
  destruct (tare_collect_all_low (constructed [5; 6] 11 128 false) 1 100
              eq_refl eq_refl 100 [] (boot (fun _ _ => LOW))
              (fun _ _ => eq_refl) ltac:(simpl; lia))
    as (collected & w1 & Hc).
  destruct (tare_offsets_in_range 100 (constructed [5; 6] 11 128 false) 100
              1%Q (boot (fun _ _ => LOW)) w1 collected eq_refl
              ltac:(lia) Hc)
    as (offs & w2 & Hrun & Hin).
  exists offs, w2. split; [exact Hrun|]. apply Hin. simpl. lia.
Defined.

Lemma retained_zero_factor (row : list Z) (m v : Q) (x : Z) :
  np_mean (map inject_Z row) = Fin m ->
  np_std_squared row = Fin v ->
  retained row 0 x = true <-> (inject_Z x == m)%Q.
Proof.
  intros Hm Hv. unfold retained. rewrite Hm, Hv.
  cbn [to_float fsub fabs le_factor_std].
  change (Qle_bool 0 0) with true. cbv iota.
  rewrite orb_true_iff, !Qle_bool_iff. split.
  - intros [H|H].
    + apply Qabs_le_0 in H. lra.
    + rewrite Qabs_square in H.
      revert H. generalize (inject_Z x). intros a H. nra.
  - intro E. left.
    setoid_replace (inject_Z x - m)%Q with 0%Q by (rewrite E; ring).
    simpl. apply Qle_refl.
Qed.

(** X16.  With factor 0 a channel keeps exactly the samples equal to its
    mean, so the stored offset of every channel is the mean of all its
    samples when some sample equals that mean, and nan otherwise. *)
Theorem tare_factor_zero (fuel : nat) (self : HX711_Multi) (n : Z)
    (w w1 : world) (collected : list (list Z)) :
  well_formed self ->
  100 <= n ->
  tare_collect fuel self n [] w = Return collected w1 ->
  exists offs w2,
    tare fuel self n 0%Q w = Return (true, set_offsets self offs) w2
    /\ forall i, (i < __num_of_HX711s self)%nat ->
         (nth i offs NaN = NaN
          /\ forall x, In x (column i collected) ->
               ~ feq (to_float x) (np_mean (map inject_Z (column i collected))))
         \/ (feq (nth i offs NaN)
                 (np_mean (map inject_Z (column i collected)))
             /\ exists x, In x (column i collected)
                  /\ feq (to_float x)
                         (np_mean (map inject_Z (column i collected)))).
Proof.
  intros Hwf Hn Hc.
  destruct (tare_after_collect fuel self n 0%Q w w1 collected Hwf Hn Hc)
    as (Hrun & Hcols & _ & Hlen & _).
  eexists _, _. split; [exact Hrun|].
  intros i Hi. rewrite nth_tare_offsets by lia.
  pose proof (column_nonempty i collected Hlen) as Hne.
  set (col := column i collected) in *.
  destruct (np_mean_Fin col Hne) as (m & Hm).
  destruct (np_std_squared_Fin col Hne) as (v & Hv).
  rewrite Hm. cbn [to_float feq].
  destruct (filter (retained col 0) col) as [|a l] eqn:Hfil.
  - left. split; [reflexivity|]. intros x Hx E.
    apply (retained_zero_factor col m v x Hm Hv) in E.
    assert (Hin : In x (filter (retained col 0) col))
      by (apply filter_In; split; assumption).
    rewrite Hfil in Hin. destruct Hin.
  - right.
    assert (Hkept : forall y, In y (a :: l) ->
                      In y col /\ (inject_Z y == m)%Q).
    { intros y Hy. rewrite <- Hfil in Hy. apply filter_In in Hy.
      destruct Hy as [Hy Hret]. split; [exact Hy|].
      apply (retained_zero_factor col m v y Hm Hv). exact Hret. }
    destruct (Hkept a (or_introl eq_refl)) as [Ha Ea].
    split; [|exists a; split; assumption].
    assert (Hall : forall y, In y (a :: l) -> y = a).
    { intros y Hy. destruct (Hkept y Hy) as [_ Ey].
      rewrite <- Ea in Ey. unfold Qeq in Ey. simpl in Ey. lia. }
    unfold np_average.
    destruct (np_mean_const (a :: l) a ltac:(discriminate) Hall)
      as (q & -> & Eq).
    cbn [feq]. rewrite Eq. exact Ea.
Qed.

Lemma tare_factor_zero_witness :
  well_formed (constructed [5; 6] 11 128 false)
  /\ 100 <= 100
  /\ exists offs w2,
       tare 100 (constructed [5; 6] 11 128 false) 100 0%Q
         (boot (fun _ _ => LOW))
       = Return (true, set_offsets (constructed [5; 6] 11 128 false) offs) w2.
Proof.
  split; [reflexivity|]. split; [lia|].
  destruct (tare_collect_all_low (constructed [5; 6] 11 128 false) 1 100
              eq_refl eq_refl 100 [] (boot (fun _ _ => LOW))
              (fun _ _ => eq_refl) ltac:(simpl; lia))
    as (collected & w1 & Hc).
  destruct (tare_factor_zero 100 (constructed [5; 6] 11 128 false) 100
              (boot (fun _ _ => LOW)) w1 collected eq_refl ltac:(lia) Hc)
    as (offs & w2 & Hrun & _).
  exists offs, w2. exact Hrun.
Defined.

(** * Further properties of read *)

(** X17.  When the raw sample of a read equals the stored offsets, channel
    by channel, read returns one value per channel and every value is 0. *)
Theorem read_zero_at_offsets (self : HX711_Multi) (w w' : world)
    (raw : list Z) :
  well_formed self ->
  readRaw self w = Return raw w' ->
  Forall2 (fun r o => feq o (to_float r)) raw (__offsets self) ->
  exists a w'',
    read self w = Return (RArray a) w''
    /\ length a = __num_of_HX711s self
    /\ Forall (fun x => feq x (Fin 0)) a.
Proof.
  intros Hwf Hrun Hall.
  destruct (readRaw_Return self w w' raw Hwf Hrun) as (-> & g & Hg & _).
  assert (Hlen : length (__offsets self) = __num_of_HX711s self).
  { rewrite <- (Forall2_length Hall).
    apply raw_readings_of_length. exact Hwf. }
  destruct (read_calibrated self g w Hwf Hg Hlen) as [w'' Hread].
  eexists _, w''. split; [exact Hread|]. split.
  - rewrite length_map, length_combine, raw_readings_of_length, Hlen
      by assumption. apply Nat.min_id.
  - apply subtract_equal_zero. exact Hall.
Qed.

Lemma read_zero_at_offsets_witness :
  well_formed (set_offsets (constructed [5; 6] 11 128 false) [Fin 0; Fin 0])
  /\ exists a w'',
       read (set_offsets (constructed [5; 6] 11 128 false) [Fin 0; Fin 0])
         (boot (fun _ _ => LOW))
       = Return (RArray a) w''
       /\ length a = 2%nat
       /\ Forall (fun x => feq x (Fin 0)) a.
Proof.
  split; [reflexivity|].
  pose proof (readRaw_spec
                (set_offsets (constructed [5; 6] 11 128 false) [Fin 0; Fin 0])
                (boot (fun _ _ => LOW)) eq_refl) as Hrun.
  cbn [__gain set_offsets constructed gain_pulse_count Z.eqb Pos.eqb] in Hrun.
  refine (read_zero_at_offsets
            (set_offsets (constructed [5; 6] 11 128 false) [Fin 0; Fin 0])
            _ _ _ eq_refl Hrun _).
  unfold raw_readings_of.
  rewrite (data_readings_low (fun _ _ => LOW) [5; 6] (fun _ _ => eq_refl)
             24 _ : data_readings _ _ _ 24 (repeat 0 2) = repeat 0 2).
  repeat constructor.
Defined.

(** X18.  read has no False result: it returns an array, or raises the
    TypeError of an unset gain pulse count, or raises ValueError when the
    number of stored offsets differs from the number of channels. *)
Theorem read_outcomes (self : HX711_Multi) (w : world) :
  well_formed self ->
  match read self w with
  | Return RFalse _ => False
  | Return (RArray a) _ =>
      __gain self <> None
      /\ (length a = __num_of_HX711s self
          \/ length a = length (__offsets self))
  | Raise e _ =>
      (e = TypeError /\ __gain self = None)
      \/ (e = ValueError /\ __gain self <> None
          /\ length (__offsets self) <> __num_of_HX711s self)
  | OutOfFuel => False
  end.
Proof.
  intro Hwf. unfold read, bind. rewrite readRaw_spec by assumption.
  destruct (__gain self) as [g|]; [|left; split; reflexivity].
  unfold list_eq_False, np_subtract.
  rewrite length_map, raw_readings_of_length by assumption.
  destruct (Nat.eqb_spec (__num_of_HX711s self) (length (__offsets self)))
    as [E|NE].
  - unfold ret. split; [discriminate|]. left.
    rewrite length_map, length_combine, length_map,
      raw_readings_of_length by assumption. lia.
  - pose proof (raw_readings_of_length self w Hwf) as Hlen.
    destruct (raw_readings_of self w) as [|x [|y raw]];
      destruct (__offsets self) as [|o [|o' offs]];
      cbn [map] in *; unfold ret, raise;
      try (right; repeat split; [discriminate | lia]);
      try (split; [discriminate|]; cbn [length] in *;
           rewrite ?length_map; lia).
Qed.

Lemma read_outcomes_witness :
  well_formed (constructed [5; 6] 11 128 false)
  /\ match read (constructed [5; 6] 11 128 false) (boot (fun _ _ => LOW)) with
     | Return RFalse _ => False
     | Return (RArray a) _ =>
         gain_pulse_count 128 <> None
         /\ (length a = 2%nat \/ length a = 0%nat)
     | Raise e _ =>
         (e = TypeError /\ gain_pulse_count 128 = None)
         \/ (e = ValueError /\ gain_pulse_count 128 <> None
             /\ 0%nat <> 2%nat)
     | OutOfFuel => False
     end.
Proof.
  split; [reflexivity|].
  exact (read_outcomes (constructed [5; 6] 11 128 false)
           (boot (fun _ _ => LOW)) eq_refl).
Defined.

(** * How tare and read compose *)

Lemma tare_collect_length (self : HX711_Multi) (n : Z) (fuel : nat) :
  forall samples w s w',
    Z.of_nat (length samples) <= n ->
    tare_collect fuel self n samples w = Return s w' ->
    Z.of_nat (length s) = n.
Proof.
  induction fuel as [|fuel IH]; intros samples w s w' Hle Hrun.
  - simpl in Hrun.
    destruct (Z.ltb_spec (Z.of_nat (length samples)) n); [discriminate|].
    injection Hrun as <- _. lia.
  - cbn [tare_collect] in Hrun.
    destruct (Z.ltb_spec (Z.of_nat (length samples)) n).
    + unfold bind in Hrun.
      destruct (isReady self w) as [b w1| |]; try discriminate.
      destruct b; [|eapply IH; eauto].
      destruct (readRaw self w1) as [r w2| |]; try discriminate.
      eapply IH; [|exact Hrun]. rewrite length_app. simpl. lia.
    + injection Hrun as <- _. lia.
Qed.

(** X19.  The polling loop of tare(n), n >= 100, hands the statistics
    exactly n sample vectors, never more, each with one unsigned 24-bit
    reading per channel. *)
Theorem tare_collects_exactly_n (fuel : nat) (self : HX711_Multi) (n : Z)
    (w w1 : world) (collected : list (list Z)) :
  well_formed self ->
  100 <= n ->
  tare_collect fuel self n [] w = Return collected w1 ->
  Z.of_nat (length collected) = n
  /\ Forall (fun r => length r = __num_of_HX711s self
                      /\ Forall (fun x => 0 <= x < 2 ^ 24) r) collected.
Proof.
  intros Hwf Hn Hc. split.
  - apply (tare_collect_length self n fuel [] w collected w1);
      [simpl; lia | exact Hc].
  - destruct (tare_collect_rows self n fuel Hwf [] w collected w1
                (Forall_nil _) Hc) as [Hrows _].
    pose proof (tare_collect_range self n fuel Hwf [] w collected w1
                  (Forall_nil _) Hc) as Hrange.
    rewrite Forall_forall in Hrows, Hrange. apply Forall_forall.
    intros r Hr. split; [apply Hrows | apply Hrange]; exact Hr.
Qed.

Lemma tare_collects_exactly_n_witness :
  well_formed (constructed [5; 6] 11 128 false)
  /\ 100 <= 120
  /\ exists collected w1,
       tare_collect 200 (constructed [5; 6] 11 128 false) 120 []
         (boot (fun _ _ => LOW)) = Return collected w1
       /\ Z.of_nat (length collected) = 120.
Proof.
  split; [reflexivity|]. split; [lia|].
  destruct (tare_collect_all_low (constructed [5; 6] 11 128 false) 1 120
              eq_refl eq_refl 200 [] (boot (fun _ _ => LOW))
              (fun _ _ => eq_refl) ltac:(simpl; lia))
    as (collected & w1 & Hc).
  exists collected, w1. split; [exact Hc|].
  exact (proj1 (tare_collects_exactly_n 200
                  (constructed [5; 6] 11 128 false) 120
                  (boot (fun _ _ => LOW)) w1 collected eq_refl
                  ltac:(lia) Hc)).
Defined.

(** X20.  After tare has returned True, read on the updated instance
    returns in every world an array with one value per channel: it raises
    neither TypeError nor ValueError. *)
Theorem read_after_tare (fuel : nat) (self self' : HX711_Multi) (n : Z)
    (factor : Q) (w w' : world) :
  well_formed self ->
  tare fuel self n factor w = Return (true, self') w' ->
  forall w2, exists a w3,
    read self' w2 = Return (RArray a) w3
    /\ length a = __num_of_HX711s self.
Proof.
  intros Hwf Hrun w2. unfold tare in Hrun.
  destruct (Z.ltb_spec n 100) as [Hlt|Hge].
  { unfold bind, print, ret in Hrun. discriminate. }
  unfold bind in Hrun.
  destruct (tare_collect fuel self n [] w) as [s w1| |] eqn:Hc;
    try discriminate.
  rewrite tare_stats_spec in Hrun. injection Hrun as <- _.
  destruct (tare_after_collect fuel self n factor w w1 s Hwf Hge Hc)
    as (_ & _ & Hoffs & _ & _).
  destruct (__gain self) as [g|] eqn:Hg.
  - destruct (read_calibrated (set_offsets self (tare_offsets s factor)) g w2
                Hwf Hg Hoffs) as [w3 Hread].
    eexists _, w3. split; [exact Hread|].
    rewrite length_map, length_combine.
    rewrite (raw_readings_of_length
               (set_offsets self (tare_offsets s factor)) w2 Hwf).
    cbn [__offsets set_offsets __num_of_HX711s]. rewrite Hoffs.
    apply Nat.min_id.
  - exfalso.
    destruct (tare_collect_no_gain self n fuel Hwf Hg [] w s w1 Hc)
      as [_ Hn]. simpl in Hn.
    destruct (Z.ltb_spec 0 n); [discriminate|lia].
Qed.

Lemma read_after_tare_witness :
  well_formed (constructed [5; 6] 11 128 false)
  /\ exists self' w' a w3,
       tare 100 (constructed [5; 6] 11 128 false) 100 1%Q
         (boot (fun _ _ => LOW)) = Return (true, self') w'
       /\ read self' w' = Return (RArray a) w3
       /\ length a = 2%nat.
Proof.
  split; [reflexivity|].
  destruct (tare_collect_all_low (constructed [5; 6] 11 128 false) 1 100
              eq_refl eq_refl 100 [] (boot (fun _ _ => LOW))
              (fun _ _ => eq_refl) ltac:(simpl; lia))
    as (collected & w1 & Hc).
  destruct (tare_after_collect 100 (constructed [5; 6] 11 128 false) 100 1%Q
              (boot (fun _ _ => LOW)) w1 collected eq_refl ltac:(lia) Hc)
    as (Hrun & _).
  destruct (read_after_tare 100 (constructed [5; 6] 11 128 false) _ 100 1%Q
              (boot (fun _ _ => LOW)) _ eq_refl Hrun
              (world_after w1 0 [] []))
    as (a & w3 & Hread & Hlen).
  eexists _, _, a, w3. split; [exact Hrun|].
  split; [exact Hread | exact Hlen].
Defined.

(** * Construction followed by acquisition *)

Lemma filter_rising_cycle (self : HX711_Multi) (w : world) (G : nat) :
  length (filter (is_rising (__PD_SCK_pin self))
            (poll_events self (levels w) (reads w)
               ++ data_events (levels w) (__PD_SCK_pin self)
                    (__DOUT_pins self) (reads w + poll_reads self) 24
               ++ [Output (__PD_SCK_pin self) LOW]
               ++ gain_events (__PD_SCK_pin self) G))
  = (24 + G)%nat.
Proof.
  rewrite !filter_app, !length_app.
  rewrite count_rising_data, count_rising_gain.
  unfold poll_events. destruct (__debug_enabled self);
    rewrite ?filter_sweep_rising; reflexivity.
Qed.

(** X21.  On an instance constructed with gain 128 every readRaw cycle
    drives the clock high 25 times in all, with gain 64 27 times (24 data
    pulses and 1 or 3 gain pulses), and reads each data pin 24 times, or 25
    times with the debug flag, whose poll reads every pin once more. *)
Theorem constructed_cycle_pulses (data_pins : list pin) (clock_pin gain : Z)
    (debug : bool) (w0 w : world) :
  gain = 128 \/ gain = 64 ->
  exists self w0' raw w' evs,
    __init__ data_pins clock_pin gain debug w0 = Return self w0'
    /\ readRaw self w = Return raw w'
    /\ gpio_log w' = gpio_log w ++ evs
    /\ length (filter (is_rising clock_pin) evs)
       = (if (gain =? 128)%Z then 25%nat else 27%nat)
    /\ reads w'
       = (reads w + (if debug then 25 else 24) * length data_pins)%nat.
Proof.
  intro Hgain.
  pose proof (constructed_well_formed data_pins clock_pin gain debug) as Hwf.
  set (self := constructed data_pins clock_pin gain debug) in *.
  assert (Hg : __gain self = Some (if gain =? 128 then 1 else 3)).
  { unfold self. cbn [__gain constructed]. unfold gain_pulse_count.
    destruct Hgain as [-> | ->]; reflexivity. }
  exists self. eexists. eexists. eexists. eexists.
  split; [apply __init___spec|].
  split; [rewrite readRaw_spec, Hg by assumption; reflexivity|].
  split.
  { unfold world_after_data. cbn [gpio_log world_after].
    rewrite <- !app_assoc. reflexivity. }
  split.
  - change clock_pin with (__PD_SCK_pin self).
    rewrite (filter_rising_cycle self w).
    destruct (gain =? 128); reflexivity.
  - unfold world_after_data. cbn [reads world_after].
    unfold poll_reads. change (__debug_enabled self) with debug.
    change (__DOUT_pins self) with data_pins.
    destruct debug; lia.
Qed.

Lemma constructed_cycle_pulses_witness :
  (64 = 128 \/ 64 = 64)
  /\ exists self w0' raw w' evs,
       __init__ [5; 6] 11 64 true (boot (fun _ _ => LOW)) = Return self w0'
       /\ readRaw self w0' = Return raw w'
       /\ gpio_log w' = gpio_log w0' ++ evs
       /\ length (filter (is_rising 11) evs) = 27%nat
       /\ reads w' = (reads w0' + 25 * 2)%nat.
Proof.
  split; [right; reflexivity|].
  destruct (constructed_cycle_pulses [5; 6] 11 64 true
              (boot (fun _ _ => LOW))
              (world_after (boot (fun _ _ => LOW)) 0 (init_events [5; 6] 11)
                 (init_msgs 64 true))
              (or_intror eq_refl))
    as (self & w0' & raw & w' & evs & Hinit & Hrun & Hlog & Hcount & Hreads).
  rewrite __init___spec in Hinit. injection Hinit as Hself Hw0.
  subst self w0'.
  exists (constructed [5; 6] 11 64 true). eexists.
  exists raw, w', evs.
  split; [apply __init___spec|].
  split; [exact Hrun|]. split; [exact Hlog|].
  split; [exact Hcount | exact Hreads].
Defined.

(** * tare over every float64 arithmetic *)

Lemma clean_data_over_filter (ops : Float64Ops) (samples : list (list Z))
    (factor : Q) :
  clean_data_of samples
    (no_outliers_over ops
       (dists_from_means_over ops samples (means_over ops samples)) factor
       (std_devs_over ops samples))
  = map (fun row => filter (retained_over ops row factor) row) samples.
Proof.
  unfold clean_data_of, no_outliers_over, dists_from_means_over, means_over,
    std_devs_over.
  induction samples as [|row rest IH]; [reflexivity|].
  cbn [map combine fst snd]. rewrite IH. f_equal.
  apply (mask_select_map row
           (fun x => f64_abs ops (int_minus ops x (np_mean_row ops row)))
           (fun d => f64_le ops d
                       (factor_times ops factor (np_std_row ops row)))).
Qed.

Lemma tare_stats_over_spec (ops : Float64Ops) (self : HX711_Multi)
    (collected : list (list Z)) (factor : Q) (w : world) :
  tare_stats_over ops self collected factor w
  = Return (true, tare_offsets_over ops collected factor)
      (world_after w 0 []
         (if __debug_enabled self
          then [msg_tared ops (tare_offsets_over ops collected factor)]
          else [])).
Proof.
  unfold tare_stats_over. rewrite clean_data_over_filter.
  rewrite excessive_false by (rewrite length_map; reflexivity).
  rewrite map_map. fold (tare_offsets_over ops collected factor).
  destruct (__debug_enabled self).
  - rewrite (bind_Return _ _ _ _ _ (print_spec _ w)). reflexivity.
  - unfold bind, ret. rewrite world_after_0. reflexivity.
Qed.


(** [tare_stats] and [tare] are the instances of [tare_stats_over] and
    [tare_over] at the exact rationals. *)
Lemma tare_stats_over_exact (self : HX711_Multi) (collected : list (list Z))
    (factor : Q) (w : world) :
  tare_stats_over exact_ops self collected factor w
  = match tare_stats self collected factor w with
    | Return (b, self') w' => Return (b, __offsets self') w'
    | Raise e w' => Raise e w'
    | OutOfFuel => OutOfFuel
    end.
Proof. rewrite tare_stats_over_spec, tare_stats_spec. reflexivity. Qed.

Lemma tare_over_exact (fuel : nat) (self : HX711_Multi) (n : Z) (factor : Q)
    (w : world) :
  tare_over exact_ops fuel self n factor w
  = match tare fuel self n factor w with
    | Return (b, self') w' =>
        Return (b, if n <? 100 then None else Some (__offsets self')) w'
    | Raise e w' => Raise e w'
    | OutOfFuel => OutOfFuel
    end.
Proof.
  unfold tare_over, tare. destruct (n <? 100); [reflexivity|].
  unfold bind.
  destruct (tare_collect fuel self n [] w) as [s w1| |]; try reflexivity.
  rewrite tare_stats_over_spec, tare_stats_spec. reflexivity.
Qed.



